(** * vendor_bird: selection, extraction guard, binary discovery and staging

    A shallow embedding of [scripts/vendor_bird.py].

    - A Python [str] is a [string] with one [ascii] per code point, so the
      strings of the model are those whose code points are all below 256
      (every ASCII string is one); [str.lower], [str.strip] and [repr] are
      modelled exactly on them.
    - The process environment is a [gmap string string].
    - An exception is the [Raise] branch of [result]; [main] hands back the
      effects it had so far together with either its return value or the
      exception that left it.
    - Everything outside the script (HTTP, the archive libraries, the scratch
      directories, the calls on the output directory) is a field of the
      [World] record, so the theorems hold for every behaviour of the host.
    - Paths are POSIX paths.  The scratch directory is fresh and the path
      leading to it holds no symbolic link, so [resolve()] works on the
      components alone; it raises on a component that holds a NUL byte.
    - The scratch directory is a tree listed in the order the host lists it;
      it does not change between the two [rglob] calls of the Locator, so
      [stat] cannot fail on a path the listing just reported as a file.
    - The effects of a run are the lines on the error stream and the files
      written below [bundled/bird]; removing the scratch directories leaves
      no trace there. *)

From Stdlib Require Import ZArith Lia Bool List Ascii String.
From stdpp Require Import base gmap strings.
Import ListNotations.

Local Open Scope string_scope.
Local Open Scope Z_scope.
Local Open Scope list_scope.

(** ** Python string primitives *)

Module PyStr.

(** The code points below 256 that [str.lower()] changes: A-Z, and the
    capital letters U+00C0-U+00DE of Latin-1 except the sign U+00D7. *)
Definition is_upper (c : ascii) : bool :=
  let n := nat_of_ascii c in
  ((Nat.leb 65 n) && (Nat.leb n 90))
  || ((Nat.leb 192 n) && (Nat.leb n 222) && negb (Nat.eqb n 215)).

Definition lower_char (c : ascii) : ascii :=
  if is_upper c then ascii_of_nat (nat_of_ascii c + 32) else c.

(** [s.lower()] *)
Fixpoint lower (s : string) : string :=
  match s with
  | EmptyString => EmptyString
  | String c s' => String (lower_char c) (lower s')
  end.

(** [s.startswith(p)] *)
Fixpoint startswith (s p : string) {struct p} : bool :=
  match p, s with
  | EmptyString, _ => true
  | String _ _, EmptyString => false
  | String a p', String b s' => Ascii.eqb a b && startswith s' p'
  end.

(** [s.endswith(suf)]: some tail of [s] is [suf]. *)
Fixpoint endswith (s suf : string) : bool :=
  String.eqb s suf ||
  match s with
  | EmptyString => false
  | String _ s' => endswith s' suf
  end.

(** [s.endswith((x1, ..., xn))] with a tuple argument. *)
Definition endswith_any (s : string) (sufs : list string) : bool :=
  existsb (endswith s) sufs.

(** [t in n] on strings: [t] occurs in [n] as a contiguous substring. *)
Fixpoint contains (t n : string) : bool :=
  startswith n t ||
  match n with
  | EmptyString => false
  | String _ n' => contains t n'
  end.

(** The code points below 256 that [str.strip()] removes: U+0009-U+000D,
    U+001C-U+0020, U+0085 and U+00A0. *)
Definition is_space (c : ascii) : bool :=
  let n := nat_of_ascii c in
  ((Nat.leb 9 n) && (Nat.leb n 13)) || ((Nat.leb 28 n) && (Nat.leb n 32))
  || Nat.eqb n 133 || Nat.eqb n 160.

Fixpoint lstrip (s : string) : string :=
  match s with
  | EmptyString => EmptyString
  | String c s' => if is_space c then lstrip s' else s
  end.

Fixpoint rstrip (s : string) : string :=
  match s with
  | EmptyString => EmptyString
  | String c s' =>
      match rstrip s' with
      | EmptyString => if is_space c then EmptyString else String c EmptyString
      | r => String c r
      end
  end.

(** [s.strip()] *)
Definition strip (s : string) : string := rstrip (lstrip s).

(** Python truthiness of an optional string: [None] and [""] are falsy. *)
Definition truthy (o : option string) : bool :=
  match o with
  | Some (String _ _) => true
  | _ => false
  end.

(** [o or ""] *)
Definition or_empty (o : option string) : string :=
  match o with
  | Some s => s
  | None => EmptyString
  end.

(** [c in s] for one character. *)
Fixpoint has_char (c : ascii) (s : string) : bool :=
  match s with
  | EmptyString => false
  | String d s' => Ascii.eqb c d || has_char c s'
  end.

(** The string holds a NUL. *)
Definition has_nul (s : string) : bool := has_char (ascii_of_nat 0) s.

Definition hex_digit (n : nat) : ascii :=
  ascii_of_nat (if Nat.ltb n 10 then 48 + n else 87 + n).

(** The code points below 256 that [repr] writes as an escape: the control
    characters, U+007F-U+00A0 and U+00AD. *)
Definition is_unprintable (c : ascii) : bool :=
  let n := nat_of_ascii c in
  Nat.ltb n 32 || ((Nat.leb 127 n) && (Nat.leb n 160)) || Nat.eqb n 173.

Definition repr_char (quote c : ascii) : string :=
  let n := nat_of_ascii c in
  let backslash := ascii_of_nat 92 in
  if Ascii.eqb c quote || Ascii.eqb c backslash then
    String backslash (String c EmptyString)
  else if Nat.eqb n 9 then String backslash "t"
  else if Nat.eqb n 10 then String backslash "n"
  else if Nat.eqb n 13 then String backslash "r"
  else if is_unprintable c then
    String backslash
      (String "x" (String (hex_digit (Nat.div n 16))
                     (String (hex_digit (Nat.modulo n 16)) EmptyString)))
  else String c EmptyString.

Fixpoint repr_body (quote : ascii) (s : string) : string :=
  match s with
  | EmptyString => EmptyString
  | String c s' => String.append (repr_char quote c) (repr_body quote s')
  end.

(** [repr(s)]: single quotes, unless [s] holds a single quote and no double
    quote. *)
Definition repr (s : string) : string :=
  let single := ascii_of_nat 39 in
  let double := ascii_of_nat 34 in
  let quote := if has_char single s && negb (has_char double s)
               then double else single in
  String quote (String.append (repr_body quote s) (String quote EmptyString)).

End PyStr.

(** ** Exceptions *)

(** The built-in exceptions the script meets, each with its message
    [str(e)] (for [KeyError], the key).  [HostError] stands for an exception
    of any other class that a library of the host raises
    ([urllib.error.HTTPError], [json.decoder.JSONDecodeError],
    [tarfile.ReadError], [FileNotFoundError], ...): it carries the text the
    interpreter prints for it at the end of a traceback, that is the
    qualified class name followed, when the message is not empty, by a colon
    and the message. *)
Inductive exn : Type :=
| KeyError (key : string)
| IndexError (msg : string)
| RuntimeError (msg : string)
| ValueError (msg : string)
| OSError (msg : string)
| HostError (report : string).

Inductive result (A : Type) : Type :=
| Ok (a : A)
| Raise (e : exn).
Arguments Ok {A} a.
Arguments Raise {A} e.

Definition bind {A B : Type} (r : result A) (k : A -> result B) : result B :=
  match r with
  | Ok a => k a
  | Raise e => Raise e
  end.

Notation "'let*' x ':=' r 'in' k" := (bind r (fun x => k))
  (at level 10, x name, r at level 100, k at level 200).

(** ** Release assets *)

(** One entry of the release's ["assets"] array.  A field is [None] when the
    key is missing or [null]. *)
Record asset : Type := mkAsset {
  a_name : option string;
  a_size : option Z;
  a_browser_download_url : option string;
}.

(** ** Asset Selector *)

Definition _token_match (name : string) (tokens : list string) : bool :=
  let n := PyStr.lower name in
  existsb (fun t => PyStr.contains t n) tokens.

(** The dict literal indexed by [goos]; an unknown key raises [KeyError]. *)
Definition os_tokens_of (goos : string) : result (list string) :=
  if String.eqb goos "darwin" then Ok ["darwin"; "macos"; "mac"; "osx"]
  else if String.eqb goos "linux" then Ok ["linux"]
  else if String.eqb goos "windows" then Ok ["windows"; "win"]
  else Raise (KeyError goos).

(** The dict literal indexed by [goarch]. *)
Definition arch_tokens_of (goarch : string) : result (list string) :=
  if String.eqb goarch "amd64" then Ok ["amd64"; "x86_64"; "x64"]
  else if String.eqb goarch "arm64" then Ok ["arm64"; "aarch64"]
  else Raise (KeyError goarch).

Definition excluded_suffixes : list string :=
  [".sha256"; ".sha256sum"; ".sig"; ".asc"; ".txt"; ".json"].

(** The [for a in assets] loop, with [matches] as the accumulator. *)
Fixpoint collect_matches (os_tokens arch_tokens : list string)
    (assets matches : list asset) : list asset :=
  match assets with
  | [] => matches
  | a :: rest =>
      let name := PyStr.or_empty (a_name a) in
      let lower := PyStr.lower name in
      if PyStr.endswith_any lower excluded_suffixes then
        collect_matches os_tokens arch_tokens rest matches
      else if _token_match name os_tokens && _token_match name arch_tokens then
        collect_matches os_tokens arch_tokens rest (matches ++ [a])
      else
        collect_matches os_tokens arch_tokens rest matches
  end.

(** [int(a.get("size") or 0)] *)
Definition size_of (a : asset) : Z :=
  match a_size a with
  | Some n => n
  | None => 0
  end.

(** The inner [score] function: [(fmt, size)], lower is better. *)
Definition score (a : asset) : Z * Z :=
  let name := PyStr.lower (PyStr.or_empty (a_name a)) in
  let fmt :=
    if PyStr.endswith name ".tar.gz" || PyStr.endswith name ".tgz" then 0
    else if PyStr.endswith name ".zip" then 1
    else 2 in
  (fmt, size_of a).

(** Python's [<] on pairs of integers (lexicographic). *)
Definition tuple_lt (p q : Z * Z) : bool :=
  (fst p <? fst q) || ((fst p =? fst q) && (snd p <? snd q)).

(** [sorted(l, key=key)]: the sort is stable, so its result is the one of a
    stable insertion sort that only ever asks whether one key is strictly
    below another. *)
Fixpoint insert_by {A : Type} (key : A -> Z * Z) (x : A) (l : list A) : list A :=
  match l with
  | [] => [x]
  | y :: l' =>
      if tuple_lt (key y) (key x) then y :: insert_by key x l'
      else x :: y :: l'
  end.

Fixpoint sorted {A : Type} (key : A -> Z * Z) (l : list A) : list A :=
  match l with
  | [] => []
  | x :: l' => insert_by key x (sorted key l')
  end.

Definition _pick_asset (assets : list asset) (goos goarch : string)
    : result (option asset) :=
  let* os_tokens := os_tokens_of goos in
  let* arch_tokens := arch_tokens_of goarch in
  let matches := collect_matches os_tokens arch_tokens assets [] in
  match matches with
  | [] => Ok None
  | _ :: _ =>
      match sorted score matches with
      | [] => Raise (IndexError "list index out of range")
      | best :: _ => Ok (Some best)
      end
  end.

(** ** Paths (POSIX flavour of [pathlib]) *)

Module PyPath.

(** [s.split("/")] *)
Fixpoint split_slash (s : string) : list string :=
  match s with
  | EmptyString => [EmptyString]
  | String c s' =>
      if Ascii.eqb c "/" then EmptyString :: split_slash s'
      else match split_slash s' with
           | h :: t => String c h :: t
           | [] => [String c EmptyString]
           end
  end.

(** Components kept when a path string is parsed: empty components and
    ["."] are dropped, [".."] is kept. *)
Definition keep_part (c : string) : bool :=
  negb (String.eqb c "" || String.eqb c ".").

Definition parts (s : string) : list string :=
  List.filter keep_part (split_slash s).

(** The anchor of a POSIX path: [""] for a relative path, ["//"] for exactly
    two leading slashes, ["/"] otherwise. *)
Definition anchor (s : string) : string :=
  match s with
  | String "/" (String "/" (String "/" _)) => "/"
  | String "/" (String "/" _) => "//"
  | String "/" _ => "/"
  | _ => ""
  end.

Record path : Type := mkPath { p_anchor : string; p_parts : list string }.

Definition parse (s : string) : path :=
  {| p_anchor := anchor s; p_parts := parts s |}.

(** [a / b]: an absolute right operand replaces the left one. *)
Definition join (a : path) (b : string) : path :=
  match anchor b with
  | EmptyString => {| p_anchor := p_anchor a; p_parts := p_parts a ++ parts b |}
  | r => {| p_anchor := r; p_parts := parts b |}
  end.

(** [..] pops the component before it; at the root it stays at the root.
    [stack] holds the components seen so far, last one first. *)
Fixpoint normalize (stack : list string) (todo : list string) : list string :=
  match todo with
  | [] => rev stack
  | c :: rest =>
      if String.eqb c ".." then normalize (tl stack) rest
      else normalize (c :: stack) rest
  end.

(** The path [p.resolve()] returns, when it returns one, for an absolute
    path whose existing prefix holds no symbolic link: the components are
    resolved lexically, and two leading slashes become one. *)
Definition resolve (p : path) : path :=
  {| p_anchor := if String.eqb (p_anchor p) "//" then "/" else p_anchor p;
     p_parts := normalize [] (p_parts p) |}.

(** [p.resolve()]: looking up a component that holds a NUL raises
    [ValueError]; [..] and the dropped components hold none. *)
Definition try_resolve (p : path) : result path :=
  if existsb PyStr.has_nul (p_parts p) then
    Raise (ValueError "embedded null byte")
  else Ok (resolve p).

Fixpoint join_parts (l : list string) : string :=
  match l with
  | [] => ""
  | [c] => c
  | c :: l' => c +:+ "/" +:+ join_parts l'
  end.

(** [str(p)] *)
Definition to_str (p : path) : string :=
  match p_anchor p, p_parts p with
  | EmptyString, [] => "."
  | r, l => r +:+ join_parts l
  end.

(** [d] is [p] or an ancestor of [p]: same anchor, and the components of
    [d] are the first components of [p]. *)
Fixpoint parts_prefix (d p : list string) : bool :=
  match d, p with
  | [], _ => true
  | _ :: _, [] => false
  | x :: d', y :: p' => String.eqb x y && parts_prefix d' p'
  end.

Definition is_within (d p : path) : bool :=
  String.eqb (p_anchor d) (p_anchor p) && parts_prefix (p_parts d) (p_parts p).

End PyPath.

(** ** Archive Extractor *)

Definition bytes := string.

(** What [rglob] sees in a directory, in the order the host lists it.  [File]
    stands for every entry on which [is_file()] answers true. *)
#[warnings="-register-all"]
Inductive node : Type :=
| File (name : string) (mode : Z) (content : bytes)
| Dir (name : string) (children : list node)
| Other (name : string).

Definition node_name (n : node) : string :=
  match n with
  | File name _ _ => name
  | Dir name _ => name
  | Other name => name
  end.

(** The archive libraries, which the script only calls. *)
Record Archives : Type := {
  tar_getmembers : bytes -> result (list string);
  tar_extractall : bytes -> string -> result (list node);
  zip_namelist : bytes -> result (list string);
  zip_extractall : bytes -> string -> result (list node);
  write_mode : Z;
}.

(** The prefix test made on one member name [n], on the paths that the two
    calls of [resolve()] return. *)
Definition member_is_safe (out_dir : string) (n : string) : bool :=
  let p := PyPath.resolve (PyPath.join (PyPath.parse out_dir) n) in
  PyStr.startswith (PyPath.to_str p)
    (PyPath.to_str (PyPath.resolve (PyPath.parse out_dir))).

(** The two statements of the guard loop for one member name [n] and an
    absolute [out_dir]: [p = (out_dir / n).resolve()], then
    [str(p).startswith(str(out_dir.resolve()))].  Either call of [resolve()]
    may raise. *)
Definition check_member (out_dir : string) (n : string) : result bool :=
  let* p := PyPath.try_resolve (PyPath.join (PyPath.parse out_dir) n) in
  let* d := PyPath.try_resolve (PyPath.parse out_dir) in
  Ok (PyStr.startswith (PyPath.to_str p) (PyPath.to_str d)).

(** The guard loop over the member names; [kind] is ["tar"] or ["zip"]. *)
Fixpoint traversal_guard (kind : string) (out_dir : string) (names : list string)
    : result unit :=
  match names with
  | [] => Ok tt
  | n :: rest =>
      let* safe := check_member out_dir n in
      if negb safe then
        Raise (RuntimeError ("unsafe " +:+ kind +:+ " member path: " +:+ n))
      else traversal_guard kind out_dir rest
  end.

(** [_extract_to_dir]; the result is the content of [out_dir] afterwards. *)
Definition _extract_to_dir (lib : Archives) (payload : bytes)
    (asset_name : string) (out_dir : string) : result (list node) :=
  let asset_name := PyStr.lower asset_name in
  if PyStr.endswith asset_name ".tar.gz" || PyStr.endswith asset_name ".tgz" then
    let* names := tar_getmembers lib payload in
    let* _u := traversal_guard "tar" out_dir names in
    tar_extractall lib payload out_dir
  else if PyStr.endswith asset_name ".zip" then
    let* names := zip_namelist lib payload in
    let* _u := traversal_guard "zip" out_dir names in
    zip_extractall lib payload out_dir
  else
    Ok [File "bird" (write_mode lib) payload].

(** ** Binary Locator *)

(** One path yielded by [rglob]: its string and what it points to. *)
Definition entry : Type := (string * node)%type.

Definition is_file (e : entry) : bool :=
  match snd e with
  | File _ _ _ => true
  | _ => false
  end.

Definition entry_name (e : entry) : string := node_name (snd e).

Definition st_mode (e : entry) : Z :=
  match snd e with
  | File _ mode _ => mode
  | _ => 0
  end.

Definition child_path (parent : string) (n : node) : string :=
  parent +:+ "/" +:+ node_name n.

Definition list_dir (parent : string) (children : list node) : list entry :=
  map (fun n => (child_path parent n, n)) children.

(** The entries below a directory node, directory after directory. *)
Fixpoint walk (parent : string) (n : node) : list entry :=
  match n with
  | Dir name children =>
      let here := parent +:+ "/" +:+ name in
      list_dir here children ++ flat_map (walk here) children
  | _ => []
  end.

(** [root.rglob("*")]: every entry below [root], the root's own entries
    first, then those of each sub-directory in turn. *)
Definition rglob (root : string) (children : list node) : list entry :=
  list_dir root children ++ flat_map (walk root) children.

Definition S_IXUSR : Z := 64.
Definition S_IXGRP : Z := 8.
Definition S_IXOTH : Z := 1.

(** [x in l] for a list of strings. *)
Definition str_in (x : string) (l : list string) : bool :=
  existsb (String.eqb x) l.

(** First loop of [_find_bird_binary]. *)
Fixpoint find_preferred (preferred : list string) (es : list entry)
    : option entry :=
  match es with
  | [] => None
  | p :: rest =>
      if negb (is_file p) then find_preferred preferred rest
      else if str_in (entry_name p) preferred then Some p
      else find_preferred preferred rest
  end.

(** Last loop of [_find_bird_binary]. *)
Fixpoint find_executable (files : list entry) : option entry :=
  match files with
  | [] => None
  | p :: rest =>
      if negb (Z.land (st_mode p) S_IXUSR =? 0)
         && PyStr.startswith (PyStr.lower (entry_name p)) "bird"
      then Some p
      else find_executable rest
  end.

Definition _find_bird_binary (root : string) (tree : list node)
    (want_windows : bool) : option entry :=
  let preferred := if want_windows then ["bird.exe"] else ["bird"] in
  match find_preferred preferred (rglob root tree) with
  | Some p => Some p
  | None =>
      let files := List.filter is_file (rglob root tree) in
      match files with
      | [only] => Some only
      | _ =>
          if negb want_windows then find_executable files
          else None
      end
  end.

(** The Locator as the specification words it: an ordered list of
    strategies over the regular files of the tree. *)
Definition locator_spec (root : string) (tree : list node)
    (want_windows : bool) : option entry :=
  let files := List.filter is_file (rglob root tree) in
  let exact := if want_windows then "bird.exe" else "bird" in
  match List.find (fun p => String.eqb (entry_name p) exact) files with
  | Some p => Some p
  | None =>
      if Nat.eqb (List.length files) 1 then hd_error files
      else if want_windows then None
      else List.find
             (fun p => PyStr.startswith (PyStr.lower (entry_name p)) "bird"
                       && Z.testbit (st_mode p) 6)
             files
  end.

(** ** Orchestrator *)

(** The parsed release document; [None] when the ["assets"] key is missing
    or [null]. *)
Record release : Type := { r_assets : option (list asset) }.

(** Everything the script reaches outside itself. *)
Record World : Type := {
  environ : gmap string string;
  _http_json : string -> result release;
  _download : string -> result bytes;
  archives : Archives;
  tempdir : nat -> string;
  mkdir : string -> result unit;
  copy2 : string -> string -> result unit;
  chmod_ok : string -> bool;
}.

(** A file written below [bundled/bird]. *)
Record staged_file : Type := {
  sf_dst : string;
  sf_src : string;
  sf_mode : Z;
  sf_content : bytes;
}.

(** The observable effects of a run: the lines printed on the error stream,
    the files staged (both in order), and how many scratch directories have
    been created. *)
Record state : Type := {
  stderr : list string;
  staged : list staged_file;
  ntemp : nat;
}.

Definition initial_state : state :=
  {| stderr := []; staged := []; ntemp := 0 |}.

(** [print(line, file=sys.stderr)] *)
Definition eprint (line : string) (st : state) : state :=
  {| stderr := stderr st ++ [line]; staged := staged st; ntemp := ntemp st |}.

Definition fresh_temp (st : state) : state :=
  {| stderr := stderr st; staged := staged st; ntemp := S (ntemp st) |}.

Definition stage (f : staged_file) (st : state) : state :=
  {| stderr := stderr st; staged := staged st ++ [f]; ntemp := ntemp st |}.

(** How one iteration of the [for] loop ends. *)
Inductive flow : Type :=
| Next
| Return (code : Z)
| Throw (e : exn).

(** How [main] ends. *)
Inductive outcome : Type :=
| Returned (code : Z)
| Raised (e : exn).

Definition target : Type := (string * string * bool)%type.

Definition targets (require_windows : bool) : list target :=
  [ ("darwin", "amd64", true);
    ("darwin", "arm64", true);
    ("linux", "amd64", true);
    ("linux", "arm64", true);
    ("windows", "amd64", require_windows);
    ("windows", "arm64", require_windows) ].

Definition out_root : string := "bundled/bird".

(** [out_root / f"bird_{goos}_{goarch}{'.exe' if want_windows else ''}"] *)
Definition dst_path (goos goarch : string) : string :=
  let want_windows := String.eqb goos "windows" in
  out_root +:+ "/" +:+ "bird_" +:+ goos +:+ "_" +:+ goarch
    +:+ (if want_windows then ".exe" else "").

Definition msg_no_asset (goos goarch : string) : string :=
  "vendor_bird: no matching asset for " +:+ goos +:+ "/" +:+ goarch.

Definition msg_invalid (goos goarch : string) : string :=
  "vendor_bird: invalid asset for " +:+ goos +:+ "/" +:+ goarch.

Definition msg_downloading (name goos goarch : string) : string :=
  "vendor_bird: downloading " +:+ name +:+ " for " +:+ goos +:+ "/" +:+ goarch.

Definition msg_not_located (name : string) : string :=
  "vendor_bird: could not locate bird binary after extracting " +:+ name.

Definition msg_no_assets : string :=
  "vendor_bird: no assets found in upstream release".

(** [_ensure_executable]: the mode of [dst] afterwards. *)
Definition _ensure_executable (w : World) (dst : string) (mode : Z) : Z :=
  if chmod_ok w dst then Z.lor (Z.lor (Z.lor mode S_IXUSR) S_IXGRP) S_IXOTH
  else mode.

(** The body of the [for goos, goarch, required in targets] loop. *)
Definition process_target (w : World) (assets : list asset) (st : state)
    (t : target) : state * flow :=
  let '(goos, goarch, required) := t in
  match _pick_asset assets goos goarch with
  | Raise e => (st, Throw e)
  | Ok None =>
      let msg := msg_no_asset goos goarch in
      if required then (eprint msg st, Return 1)
      else (eprint (msg +:+ " (skipping)") st, Next)
  | Ok (Some a) =>
      let url := a_browser_download_url a in
      let name := PyStr.or_empty (a_name a) in
      if negb (PyStr.truthy url) || negb (PyStr.truthy (Some name)) then
        (eprint (msg_invalid goos goarch) st, Return 1)
      else
        let st := eprint (msg_downloading name goos goarch) st in
        match _download w (PyStr.or_empty url) with
        | Raise e => (st, Throw e)
        | Ok payload =>
            let tmp := tempdir w (ntemp st) in
            let st := fresh_temp st in
            match _extract_to_dir (archives w) payload name tmp with
            | Raise e => (st, Throw e)
            | Ok tree =>
                let want_windows := String.eqb goos "windows" in
                match _find_bird_binary tmp tree want_windows with
                | None =>
                    let msg := msg_not_located name in
                    if required then (eprint msg st, Return 1)
                    else (eprint (msg +:+ " (skipping)") st, Next)
                | Some bird_path =>
                    let dst := dst_path goos goarch in
                    match copy2 w (fst bird_path) dst with
                    | Raise e => (st, Throw e)
                    | Ok _ =>
                        let f := {| sf_dst := dst;
                                    sf_src := fst bird_path;
                                    sf_mode := _ensure_executable w dst
                                                 (st_mode bird_path);
                                    sf_content :=
                                      match snd bird_path with
                                      | File _ _ c => c
                                      | _ => ""
                                      end |} in
                        (stage f st, Next)
                    end
                end
            end
        end
  end.

(** The [for] loop: [Next] when it runs to its end. *)
Fixpoint run_targets (w : World) (assets : list asset) (st : state)
    (ts : list target) : state * flow :=
  match ts with
  | [] => (st, Next)
  | t :: rest =>
      match process_target w assets st t with
      | (st', Next) => run_targets w assets st' rest
      | r => r
      end
  end.

(** [os.environ.get(key, default)] *)
Definition environ_get (w : World) (key dflt : string) : string :=
  default dflt (environ w !! key).

Definition require_windows_of (w : World) : bool :=
  String.eqb (PyStr.strip (environ_get w "BIRDY_BUNDLE_WINDOWS" "1")) "1".

Definition release_url (w : World) : string :=
  let repo := environ_get w "BIRD_REPO" "steipete/bird" in
  let version := PyStr.strip (environ_get w "BIRD_VERSION" "") in
  if PyStr.truthy (Some version) then
    "https://api.github.com/repos/" +:+ repo +:+ "/releases/tags/" +:+ version
  else
    "https://api.github.com/repos/" +:+ repo +:+ "/releases/latest".

Definition main (w : World) : state * outcome :=
  let require_windows := require_windows_of w in
  match _http_json w (release_url w) with
  | Raise e => (initial_state, Raised e)
  | Ok rel =>
      let assets := default [] (r_assets rel) in
      match assets with
      | [] => (eprint msg_no_assets initial_state, Returned 1)
      | _ :: _ =>
          match mkdir w out_root with
          | Raise e => (initial_state, Raised e)
          | Ok _ =>
              match run_targets w assets initial_state
                      (targets require_windows) with
              | (st, Next) => (st, Returned 0)
              | (st, Return code) => (st, Returned code)
              | (st, Throw e) => (st, Raised e)
              end
          end
      end
  end.

(** The class name, followed by the message when there is one. *)
Definition with_message (class msg : string) : string :=
  if String.eqb msg "" then class else class +:+ ": " +:+ msg.

(** What the interpreter prints for [e] at the end of the traceback. *)
Definition exn_line (e : exn) : string :=
  match e with
  | KeyError k => "KeyError: " +:+ PyStr.repr k
  | IndexError m => with_message "IndexError" m
  | RuntimeError m => with_message "RuntimeError" m
  | ValueError m => with_message "ValueError" m
  | OSError m => with_message "OSError" m
  | HostError report => report
  end.

(** [raise SystemExit(main())]: the exit status of the process and its
    effects.  An exception that leaves [main] makes the interpreter print a
    traceback (its frame lines are left out here) and exit with status 1. *)
Definition run_script (w : World) : Z * state :=
  match main w with
  | (st, Returned code) => (code, st)
  | (st, Raised e) =>
      (1, eprint (exn_line e)
            (eprint "Traceback (most recent call last):" st))
  end.

(** * Specification-side notions and sample inputs *)

(** ** Selector *)

(** An asset is a candidate for a target when its lower-cased name carries
    none of the excluded suffixes and holds a token of each list. *)
Definition is_match (os_tokens arch_tokens : list string) (a : asset) : bool :=
  let name := PyStr.or_empty (a_name a) in
  negb (PyStr.endswith_any (PyStr.lower name) excluded_suffixes)
  && (_token_match name os_tokens && _token_match name arch_tokens).

Definition format_rank (a : asset) : Z := fst (score a).

(** Python's [<=] on pairs of integers. *)
Definition tuple_le (p q : Z * Z) : Prop :=
  fst p < fst q \/ (fst p = fst q /\ snd p <= snd q).


(** [a] sits in [l] between [l1] and [l2], every asset before it scores
    strictly worse, and none after it scores strictly better. *)
Definition earliest_minimal (l l1 : list asset) (a : asset) (l2 : list asset)
    : Prop :=
  l = l1 ++ a :: l2
  /\ (forall b, In b l1 -> tuple_lt (score a) (score b) = true)
  /\ (forall b, In b l2 -> tuple_lt (score b) (score a) = false).

(** A release with a large tarball, a small zip and a checksum file. *)
Definition sample_assets : list asset :=
  [ mkAsset (Some "bird_darwin_amd64.zip") (Some 3000000)
      (Some "https://example.org/bird_darwin_amd64.zip");
    mkAsset (Some "bird_darwin_amd64.tar.gz") (Some 9000000)
      (Some "https://example.org/bird_darwin_amd64.tar.gz");
    mkAsset (Some "bird_darwin_amd64.tar.gz.sha256") (Some 64)
      (Some "https://example.org/bird_darwin_amd64.tar.gz.sha256") ].

(** Two candidates for linux/amd64 with the same format and declared size. *)
Definition tie_first : asset :=
  mkAsset (Some "bird-linux-x64.tar.gz") (Some 4096)
    (Some "https://example.org/bird-linux-x64.tar.gz").

Definition tie_second : asset :=
  mkAsset (Some "bird_linux_amd64.tgz") (Some 4096)
    (Some "https://example.org/bird_linux_amd64.tgz").

(** ** Locator and Extractor *)

(** A scratch tree whose only regular file is [pkg/payload.bin]. *)
Definition payload_only_tree : list node :=
  [ Dir "pkg" [ File "payload.bin" 420 "ELF"; Other "dangling" ] ].

(** An archive whose single member climbs out of the scratch directory into
    a sibling whose name merely extends the scratch directory's name. *)
Definition sibling_archive : Archives := {|
  tar_getmembers := fun _ => Ok ["../tmpabc/evil"];
  tar_extractall := fun payload _ => Ok [];
  zip_namelist := fun _ => Ok ["../tmpabc/evil"];
  zip_extractall := fun payload _ => Ok [];
  write_mode := 420;
|}.

(** ** Orchestrator *)

Definition t_dst (t : target) : string := dst_path (fst (fst t)) (snd (fst t)).
Definition t_required (t : target) : bool := snd t.

(** A line the script itself prints. *)
Definition is_diag (line : string) : Prop :=
  PyStr.startswith line "vendor_bird: " = true.

(** What an iteration can have done when it ends. *)
Definition iteration_effect (st : state) (t : target) (st' : state) (fl : flow)
    : Prop :=
  match fl with
  | Next =>
      (exists f, staged st' = staged st ++ [f] /\ sf_dst f = t_dst t)
      \/ (t_required t = false /\ staged st' = staged st)
  | Return code =>
      code = 1 /\ staged st' = staged st
      /\ exists pre line, stderr st' = pre ++ [line] /\ is_diag line
  | Throw _ => staged st' = staged st
  end.

(** [ks] are the targets of [ts] that were staged: only targets that are not
    required may be left out. *)
Inductive staged_of : list target -> list target -> Prop :=
| staged_nil : staged_of [] []
| staged_keep (t : target) (ts ks : list target) :
    staged_of ts ks -> staged_of (t :: ts) (t :: ks)
| staged_skip (t : target) (ts ks : list target) :
    t_required t = false -> staged_of ts ks -> staged_of (t :: ts) ks.

(** What the loop can have done when it ends. *)
Definition loop_effect (st : state) (ts : list target) (st' : state) (fl : flow)
    : Prop :=
  match fl with
  | Next =>
      exists ks, staged_of ts ks
                 /\ map sf_dst (staged st') = map sf_dst (staged st) ++ map t_dst ks
  | Return code =>
      code = 1 /\ exists pre line, stderr st' = pre ++ [line] /\ is_diag line
  | Throw _ => True
  end.

(** The Selector finds nothing for the target. *)
Definition selector_miss (assets : list asset) (goos goarch : string) : Prop :=
  _pick_asset assets goos goarch = Ok None.

(** A well-formed asset named [name] is selected, downloaded and extracted,
    and the Locator finds nothing in the scratch directory. *)
Definition locator_miss (w : World) (assets : list asset) (st : state)
    (goos goarch name : string) : Prop :=
  exists a payload tree,
    _pick_asset assets goos goarch = Ok (Some a)
    /\ name = PyStr.or_empty (a_name a)
    /\ PyStr.truthy (a_browser_download_url a) = true
    /\ PyStr.truthy (a_name a) = true
    /\ _download w (PyStr.or_empty (a_browser_download_url a)) = Ok payload
    /\ _extract_to_dir (archives w) payload name (tempdir w (ntemp st)) = Ok tree
    /\ _find_bird_binary (tempdir w (ntemp st)) tree (String.eqb goos "windows")
       = None.

(** The fatal conditions met before the loop: the release cannot be
    fetched or parsed, it holds no assets, or the output directory cannot be
    created. *)
Inductive fatal_setup (w : World) : Prop :=
| fatal_fetch (e : exn) :
    _http_json w (release_url w) = Raise e -> fatal_setup w
| fatal_no_assets (rel : release) :
    _http_json w (release_url w) = Ok rel ->
    default [] (r_assets rel) = [] -> fatal_setup w
| fatal_mkdir (rel : release) (e : exn) :
    _http_json w (release_url w) = Ok rel ->
    default [] (r_assets rel) <> [] ->
    mkdir w out_root = Raise e -> fatal_setup w.

(** A well-formed asset is selected for the target. *)
Definition selected (assets : list asset) (goos goarch : string) (a : asset)
    : Prop :=
  _pick_asset assets goos goarch = Ok (Some a)
  /\ PyStr.truthy (a_browser_download_url a) = true
  /\ PyStr.truthy (a_name a) = true.

(** The fatal conditions of one iteration, begun in state [st]: the Selector
    raises; it finds nothing for a required target; the selected asset lacks
    a URL or a name; the download fails; the extraction fails (among others
    on an unsafe member path); the Locator finds nothing for a required
    target; the copy into the output directory fails. *)
Inductive fatal_at (w : World) (assets : list asset) (st : state)
    : target -> Prop :=
| fatal_selector (goos goarch : string) (required : bool) (e : exn) :
    _pick_asset assets goos goarch = Raise e ->
    fatal_at w assets st (goos, goarch, required)
| fatal_no_asset (goos goarch : string) :
    _pick_asset assets goos goarch = Ok None ->
    fatal_at w assets st (goos, goarch, true)
| fatal_invalid_asset (goos goarch : string) (required : bool) (a : asset) :
    _pick_asset assets goos goarch = Ok (Some a) ->
    PyStr.truthy (a_browser_download_url a) = false
    \/ PyStr.truthy (a_name a) = false ->
    fatal_at w assets st (goos, goarch, required)
| fatal_download (goos goarch : string) (required : bool) (a : asset) (e : exn) :
    selected assets goos goarch a ->
    _download w (PyStr.or_empty (a_browser_download_url a)) = Raise e ->
    fatal_at w assets st (goos, goarch, required)
| fatal_extract (goos goarch : string) (required : bool) (a : asset)
    (payload : bytes) (e : exn) :
    selected assets goos goarch a ->
    _download w (PyStr.or_empty (a_browser_download_url a)) = Ok payload ->
    _extract_to_dir (archives w) payload (PyStr.or_empty (a_name a))
      (tempdir w (ntemp st)) = Raise e ->
    fatal_at w assets st (goos, goarch, required)
| fatal_not_located (goos goarch : string) (a : asset) (payload : bytes)
    (tree : list node) :
    selected assets goos goarch a ->
    _download w (PyStr.or_empty (a_browser_download_url a)) = Ok payload ->
    _extract_to_dir (archives w) payload (PyStr.or_empty (a_name a))
      (tempdir w (ntemp st)) = Ok tree ->
    _find_bird_binary (tempdir w (ntemp st)) tree (String.eqb goos "windows")
    = None ->
    fatal_at w assets st (goos, goarch, true)
| fatal_copy (goos goarch : string) (required : bool) (a : asset)
    (payload : bytes) (tree : list node) (bird_path : entry) (e : exn) :
    selected assets goos goarch a ->
    _download w (PyStr.or_empty (a_browser_download_url a)) = Ok payload ->
    _extract_to_dir (archives w) payload (PyStr.or_empty (a_name a))
      (tempdir w (ntemp st)) = Ok tree ->
    _find_bird_binary (tempdir w (ntemp st)) tree (String.eqb goos "windows")
    = Some bird_path ->
    copy2 w (fst bird_path) (dst_path goos goarch) = Raise e ->
    fatal_at w assets st (goos, goarch, required).

(** The run gets as far as the target [t], which it begins in state [st1]
    after the targets [ts1] have gone through. *)
Definition reaches (w : World) (rel : release) (ts1 : list target) (t : target)
    (ts2 : list target) (st1 : state) : Prop :=
  _http_json w (release_url w) = Ok rel
  /\ default [] (r_assets rel) <> []
  /\ mkdir w out_root = Ok tt
  /\ targets (require_windows_of w) = ts1 ++ t :: ts2
  /\ run_targets w (default [] (r_assets rel)) initial_state ts1 = (st1, Next).

(** The four targets that are always required. *)
Definition unix_targets : list target :=
  [ ("darwin", "amd64", true);
    ("darwin", "arm64", true);
    ("linux", "amd64", true);
    ("linux", "arm64", true) ].

(** ** Sample hosts *)

(** Tarballs hold one executable named [bird]; zip files hold a read-me and
    a [bird] without the [.exe] ending. *)
Definition plain_archives : Archives := {|
  tar_getmembers := fun _ => Ok ["bird"];
  tar_extractall := fun payload _ => Ok [File "bird" 493 payload];
  zip_namelist := fun _ => Ok ["README.md"; "bird"];
  zip_extractall := fun payload _ =>
    Ok [File "README.md" 420 "read me"; File "bird" 493 payload];
  write_mode := 420;
|}.

(** A host on which every request succeeds, whose release holds [assets]. *)
Definition serving_world (env : gmap string string) (assets : list asset)
    : World := {|
  environ := env;
  _http_json := fun _ => Ok {| r_assets := Some assets |};
  _download := fun url => Ok url;
  archives := plain_archives;
  tempdir := fun n => "/tmp/tmpvendor" +:+ String (ascii_of_nat (48 + n)) "";
  mkdir := fun _ => Ok tt;
  copy2 := fun _ _ => Ok tt;
  chmod_ok := fun _ => true;
|}.

(** A release for macOS and linux only, with no [win] in any name. *)
Definition unix_assets : list asset :=
  [ mkAsset (Some "bird-macos-x64.tar.gz") (Some 9000000)
      (Some "https://example.org/bird-macos-x64.tar.gz");
    mkAsset (Some "bird-macos-arm64.tar.gz") (Some 9000000)
      (Some "https://example.org/bird-macos-arm64.tar.gz");
    mkAsset (Some "bird-linux-x64.tar.gz") (Some 9000000)
      (Some "https://example.org/bird-linux-x64.tar.gz");
    mkAsset (Some "bird-linux-arm64.tar.gz") (Some 9000000)
      (Some "https://example.org/bird-linux-arm64.tar.gz") ].

Definition unix_world (env : gmap string string) : World :=
  serving_world env unix_assets.

(** The environment with the windows flag switched off. *)
Definition flag_off : gmap string string := {[ "BIRDY_BUNDLE_WINDOWS" := "0" ]}.

(** The environment with the windows flag set to a padded one. *)
Definition flag_padded_one : gmap string string :=
  {[ "BIRDY_BUNDLE_WINDOWS" := " 1" ]}.

(** A windows asset without download URL. *)
Definition broken_windows_asset : asset :=
  mkAsset (Some "bird-windows-x64.zip") (Some 10) None.

Definition broken_windows_world : World :=
  serving_world flag_off (unix_assets ++ [broken_windows_asset]).

(** A windows zip that holds no [bird.exe]. *)
Definition windows_zip_asset : asset :=
  mkAsset (Some "bird-windows-x64.zip") (Some 10)
    (Some "https://example.org/bird-windows-x64.zip").

(** A host on which the download of the windows zip times out. *)
Definition timeout_world : World := {|
  environ := flag_off;
  _http_json := fun _ =>
    Ok {| r_assets := Some (unix_assets ++ [windows_zip_asset]) |};
  _download := fun url =>
    if PyStr.contains "windows" url then
      Raise (HostError "urllib.error.URLError: <urlopen error timed out>")
    else Ok url;
  archives := plain_archives;
  tempdir := fun n => "/tmp/tmpvendor" +:+ String (ascii_of_nat (48 + n)) "";
  mkdir := fun _ => Ok tt;
  copy2 := fun _ _ => Ok tt;
  chmod_ok := fun _ => true;
|}.

(** The same release with the macOS assets named after [darwin]. *)
Definition darwin_assets : list asset :=
  [ mkAsset (Some "bird_darwin_amd64.tar.gz") (Some 9000000)
      (Some "https://example.org/bird_darwin_amd64.tar.gz");
    mkAsset (Some "bird_darwin_arm64.tar.gz") (Some 9000000)
      (Some "https://example.org/bird_darwin_arm64.tar.gz");
    mkAsset (Some "bird_linux_amd64.tar.gz") (Some 9000000)
      (Some "https://example.org/bird_linux_amd64.tar.gz");
    mkAsset (Some "bird_linux_arm64.tar.gz") (Some 9000000)
      (Some "https://example.org/bird_linux_arm64.tar.gz") ].

(** * Further parts of the script *)

(** ** Request headers *)

(** [a or b] on optional strings. *)
Definition py_or (a b : option string) : option string :=
  if PyStr.truthy a then a else b.

(** [os.environ.get("GITHUB_TOKEN") or os.environ.get("GH_TOKEN") or ""] *)
Definition auth_token (env : gmap string string) : string :=
  PyStr.or_empty
    (py_or (py_or (env !! "GITHUB_TOKEN") (env !! "GH_TOKEN")) (Some "")).

(** [**({"Authorization": f"Bearer {token}"} if token else {})] *)
Definition auth_header (token : string) : gmap string string :=
  if PyStr.truthy (Some token) then {[ "Authorization" := "Bearer " +:+ token ]}
  else ∅.

(** The [headers] dict of [_http_json]; the entries spread in last win. *)
Definition http_json_headers (env : gmap string string) : gmap string string :=
  auth_header (auth_token env)
  ∪ {[ "Accept" := "application/vnd.github+json";
       "User-Agent" := "birdy-vendor-bird" ]}.

(** The [headers] dict of [_download]. *)
Definition download_headers (env : gmap string string) : gmap string string :=
  auth_header (auth_token env) ∪ {[ "User-Agent" := "birdy-vendor-bird" ]}.

(** ** Trees *)

(** [x] is a node of the tree [l], at any depth. *)
Inductive occurs (x : node) : list node -> Prop :=
| occurs_here (l : list node) : In x l -> occurs x l
| occurs_below (name : string) (children l : list node) :
    In (Dir name children) l -> occurs x children -> occurs x l.

(** ** Path components *)

(** No [/] in the string. *)
Fixpoint slash_free (s : string) : bool :=
  match s with
  | EmptyString => true
  | String c s' => negb (Ascii.eqb c "/") && slash_free s'
  end.

(** A component as path parsing yields it: not empty and without [/]. *)
Definition is_component (c : string) : bool :=
  negb (String.eqb c "") && slash_free c.

(** Archives whose second member climbs two levels up. *)
Definition climbing_archives : Archives := {|
  tar_getmembers := fun _ => Ok ["bird"; "../../evil"; "README.md"];
  tar_extractall := fun payload _ => Ok [File "bird" 493 payload];
  zip_namelist := fun _ => Ok ["bird"; "../../evil"; "README.md"];
  zip_extractall := fun payload _ => Ok [File "bird" 493 payload];
  write_mode := 420;
|}.

(** A release whose windows assets are tarballs. *)
Definition six_assets : list asset :=
  [ mkAsset (Some "bird-macos-x64.tar.gz") (Some 9000000)
      (Some "https://example.org/bird-macos-x64.tar.gz");
    mkAsset (Some "bird-macos-arm64.tar.gz") (Some 9000000)
      (Some "https://example.org/bird-macos-arm64.tar.gz");
    mkAsset (Some "bird-linux-x64.tar.gz") (Some 9000000)
      (Some "https://example.org/bird-linux-x64.tar.gz");
    mkAsset (Some "bird-linux-arm64.tar.gz") (Some 9000000)
      (Some "https://example.org/bird-linux-arm64.tar.gz");
    mkAsset (Some "bird-windows-x64.tar.gz") (Some 9000000)
      (Some "https://example.org/bird-windows-x64.tar.gz");
    mkAsset (Some "bird-windows-arm64.tar.gz") (Some 9000000)
      (Some "https://example.org/bird-windows-arm64.tar.gz") ].

(** A raw, unarchived linux binary. *)
Definition raw_asset : asset :=
  mkAsset (Some "bird-linux-x64") (Some 5000000)
    (Some "https://example.org/bird-linux-x64").

(** What an iteration leaves behind, however it ends: the lines it printed
    are diagnostics of the script, and it staged at most the file of its own
    target, in a scratch directory it created. *)
Definition iteration_trace (st : state) (t : target) (st' : state) : Prop :=
  (exists lines, stderr st' = stderr st ++ lines
                 /\ Forall is_diag lines /\ (List.length lines <= 2)%nat)
  /\ ((staged st' = staged st
       /\ (ntemp st' = ntemp st \/ ntemp st' = S (ntemp st)))
      \/ (exists f, staged st' = staged st ++ [f] /\ sf_dst f = t_dst t
                    /\ ntemp st' = S (ntemp st))).

(** The same for a whole loop over [ts], with [ks] the targets staged. *)
Definition loop_trace (st : state) (ts : list target) (st' : state) : Prop :=
  exists lines ks,
    stderr st' = stderr st ++ lines
    /\ Forall is_diag lines
    /\ (List.length lines <= 2 * List.length ts)%nat
    /\ ks `sublist_of` ts
    /\ map sf_dst (staged st') = map sf_dst (staged st) ++ map t_dst ks
    /\ (ntemp st + List.length ks <= ntemp st')%nat
    /\ (ntemp st' <= ntemp st + List.length ts)%nat.

(** * Properties *)

(** ** The selector's loop is a filter *)

Section Selector.

Variables os_tokens arch_tokens : list string.

Lemma collect_matches_filter (assets acc : list asset) :
  collect_matches os_tokens arch_tokens assets acc
  = acc ++ List.filter (is_match os_tokens arch_tokens) assets.
Proof.
  revert acc. induction assets as [|a rest IH]; intros acc;
    cbn [collect_matches List.filter].
  - now rewrite app_nil_r.
  - unfold is_match at 1.
    destruct (PyStr.endswith_any _ excluded_suffixes); cbn [negb andb].
    + apply IH.
    + destruct (_token_match _ os_tokens && _token_match _ arch_tokens).
      * rewrite IH, <- app_assoc. reflexivity.
      * apply IH.
Qed.

End Selector.

(** ** Facts about the tuple order and the stable sort *)

Lemma tuple_lt_false (p q : Z * Z) : tuple_lt q p = false <-> tuple_le p q.
Proof.
  unfold tuple_lt, tuple_le.
  destruct (fst q <? fst p) eqn:E1; destruct (fst q =? fst p) eqn:E2;
    destruct (snd q <? snd p) eqn:E3; simpl; split; intros H; try discriminate;
    try reflexivity; lia.
Qed.

Lemma tuple_lt_true (p q : Z * Z) :
  tuple_lt p q = true <-> fst p < fst q \/ (fst p = fst q /\ snd p < snd q).
Proof.
  unfold tuple_lt.
  destruct (fst p <? fst q) eqn:E1; destruct (fst p =? fst q) eqn:E2;
    destruct (snd p <? snd q) eqn:E3; simpl; split; intros H; try discriminate;
    try reflexivity; lia.
Qed.

Section StableSort.

Context {A : Type} (key : A -> Z * Z).

Lemma insert_by_not_nil (x : A) (l : list A) : insert_by key x l <> [].
Proof. destruct l as [|y l]; simpl; [|destruct (tuple_lt _ _)]; discriminate. Qed.

Lemma sorted_nil_inv (l : list A) : sorted key l = [] -> l = [].
Proof.
  destruct l as [|x l]; simpl; intros H; [reflexivity|].
  now apply insert_by_not_nil in H.
Qed.

(** The head of the sorted list is the earliest element of the input whose
    key no other element is strictly below. *)
Lemma sorted_head (l : list A) (best : A) (rest : list A) :
  sorted key l = best :: rest ->
  exists l1 l2,
    l = l1 ++ best :: l2
    /\ (forall b, In b l1 -> tuple_lt (key best) (key b) = true)
    /\ (forall b, In b l2 -> tuple_lt (key b) (key best) = false).
Proof.
  revert best rest. induction l as [|x l IH]; intros best rest; simpl.
  - discriminate.
  - destruct (sorted key l) as [|y r] eqn:Es; simpl.
    + intros [= <- <-]. apply sorted_nil_inv in Es. subst l.
      exists [], []. simpl. repeat split; intros b [].
    + destruct (IH y r eq_refl) as (m1 & m2 & -> & Hlt & Hge).
      destruct (tuple_lt (key y) (key x)) eqn:E; intros [= <- <-].
      * exists (x :: m1), m2. simpl. repeat split; [|assumption].
        intros b [<-|Hb]; [assumption | now apply Hlt].
      * exists [], (m1 ++ y :: m2). simpl. repeat split; [intros b []|].
        intros b Hb. apply tuple_lt_false.
        apply tuple_lt_false in E.
        apply in_app_or in Hb. destruct Hb as [Hb|[<-|Hb]].
        -- apply Hlt, tuple_lt_true in Hb. unfold tuple_le in *. lia.
        -- assumption.
        -- apply Hge, tuple_lt_false in Hb. unfold tuple_le in *. lia.
Qed.

End StableSort.

(** ** What [_pick_asset] returns *)

(** The shape of every successful selection. *)
Lemma pick_asset_inv (assets : list asset) (goos goarch : string) (a : asset) :
  _pick_asset assets goos goarch = Ok (Some a) ->
  exists os_tokens arch_tokens l1 l2,
    os_tokens_of goos = Ok os_tokens
    /\ arch_tokens_of goarch = Ok arch_tokens
    /\ List.filter (is_match os_tokens arch_tokens) assets = l1 ++ a :: l2
    /\ (forall b, In b l1 -> tuple_lt (score a) (score b) = true)
    /\ (forall b, In b l2 -> tuple_lt (score b) (score a) = false).
Proof.
  unfold _pick_asset.
  destruct (os_tokens_of goos) as [os_tokens|] eqn:Eo; simpl; [|discriminate].
  destruct (arch_tokens_of goarch) as [arch_tokens|] eqn:Ea; simpl; [|discriminate].
  rewrite collect_matches_filter. simpl.
  destruct (List.filter _ assets) as [|m ms] eqn:Ef; [discriminate|].
  destruct (sorted score (m :: ms)) as [|best rest] eqn:Es; [discriminate|].
  intros [= <-].
  destruct (sorted_head score _ _ _ Es) as (l1 & l2 & Hl & H1 & H2).
  exists os_tokens, arch_tokens, l1, l2. rewrite Ef, Hl. auto.
Qed.

(** With known token lists and at least one candidate, a selection is made. *)
Lemma pick_asset_total (assets : list asset) (goos goarch : string)
    (os_tokens arch_tokens : list string) (b : asset) :
  os_tokens_of goos = Ok os_tokens ->
  arch_tokens_of goarch = Ok arch_tokens ->
  In b assets -> is_match os_tokens arch_tokens b = true ->
  exists a, _pick_asset assets goos goarch = Ok (Some a).
Proof.
  intros Eo Ea Hin Hm. unfold _pick_asset. rewrite Eo, Ea. simpl.
  rewrite collect_matches_filter. simpl.
  assert (Hb : In b (List.filter (is_match os_tokens arch_tokens) assets))
    by (apply filter_In; split; assumption).
  destruct (List.filter _ assets) as [|m ms] eqn:Ef; [destruct Hb|].
  destruct (sorted score (m :: ms)) as [|best rest] eqn:Es.
  - apply sorted_nil_inv in Es. discriminate.
  - eauto.
Qed.

(** Without a candidate the selector answers [None]. *)
Lemma pick_asset_none (assets : list asset) (goos goarch : string)
    (os_tokens arch_tokens : list string) :
  os_tokens_of goos = Ok os_tokens ->
  arch_tokens_of goarch = Ok arch_tokens ->
  (forall b, In b assets -> is_match os_tokens arch_tokens b = false) ->
  _pick_asset assets goos goarch = Ok None.
Proof.
  intros Eo Ea Hno. unfold _pick_asset. rewrite Eo, Ea. simpl.
  rewrite collect_matches_filter. simpl.
  destruct (List.filter _ assets) as [|m ms] eqn:Ef; [reflexivity|].
  assert (Hm : In m (List.filter (is_match os_tokens arch_tokens) assets))
    by (rewrite Ef; now left).
  apply filter_In in Hm. destruct Hm as [Hin Hm].
  rewrite (Hno m Hin) in Hm. discriminate.
Qed.

(** For the six targets of the script the selector raises nothing. *)
Lemma pick_asset_ok_on_targets (assets : list asset) (rw : bool) (t : target) :
  In t (targets rw) ->
  exists r, _pick_asset assets (fst (fst t)) (snd (fst t)) = Ok r.
Proof.
  intros Hin.
  assert (Htok : exists os_tokens arch_tokens,
             os_tokens_of (fst (fst t)) = Ok os_tokens
             /\ arch_tokens_of (snd (fst t)) = Ok arch_tokens).
  { unfold targets in Hin. cbn [In] in Hin.
    destruct Hin as [<-|[<-|[<-|[<-|[<-|[<-|[]]]]]]]; eexists _, _; split; reflexivity. }
  destruct Htok as (os_tokens & arch_tokens & Eo & Ea).
  unfold _pick_asset. rewrite Eo, Ea. cbn [bind].
  destruct (collect_matches os_tokens arch_tokens assets []) as [|m ms];
    [eauto|].
  destruct (sorted score (m :: ms)) as [|best rest] eqn:Es; [|eauto].
  apply sorted_nil_inv in Es. discriminate.
Qed.

(** ** Format ranks *)




(** ** Ranking (C3) *)



(** ** Token matching (C7) *)

(** C7.  An asset is returned for a target only if its lower-cased name holds
    one of the target's OS aliases (darwin: darwin/macos/mac/osx; linux:
    linux; windows: windows/win) and one of its architecture aliases (amd64:
    amd64/x86_64/x64; arm64: arm64/aarch64), and does not end in a checksum
    (.sha256, .sha256sum), signature (.sig, .asc), text (.txt) or json (.json)
    suffix.  So no asset is ever returned on the strength of the OS alone or
    of the architecture alone. *)
Theorem pick_asset_matches_target (assets : list asset) (goos goarch : string)
    (a : asset) :
  _pick_asset assets goos goarch = Ok (Some a) ->
  let n := PyStr.lower (PyStr.or_empty (a_name a)) in
  In a assets
  /\ ((goos = "darwin"
       /\ (PyStr.contains "darwin" n || PyStr.contains "macos" n
           || PyStr.contains "mac" n || PyStr.contains "osx" n) = true)
      \/ (goos = "linux" /\ PyStr.contains "linux" n = true)
      \/ (goos = "windows"
          /\ (PyStr.contains "windows" n || PyStr.contains "win" n) = true))
  /\ ((goarch = "amd64"
       /\ (PyStr.contains "amd64" n || PyStr.contains "x86_64" n
           || PyStr.contains "x64" n) = true)
      \/ (goarch = "arm64"
          /\ (PyStr.contains "arm64" n || PyStr.contains "aarch64" n) = true))
  /\ PyStr.endswith n ".sha256" = false
  /\ PyStr.endswith n ".sha256sum" = false
  /\ PyStr.endswith n ".sig" = false
  /\ PyStr.endswith n ".asc" = false
  /\ PyStr.endswith n ".txt" = false
  /\ PyStr.endswith n ".json" = false.
Proof.
  intros Hp n.
  destruct (pick_asset_inv _ _ _ _ Hp) as (os_t & ar_t & l1 & l2 & Eo & Ea & Hf & _ & _).
  assert (Hin : In a (List.filter (is_match os_t ar_t) assets))
    by (rewrite Hf; apply in_or_app; right; now left).
  apply filter_In in Hin. destruct Hin as [Hin Hm].
  unfold is_match in Hm. fold n in Hm.
  apply andb_true_iff in Hm. destruct Hm as [Hex Hm].
  apply andb_true_iff in Hm. destruct Hm as [Hos Har].
  unfold _token_match in Hos, Har. fold n in Hos, Har.
  split; [exact Hin|]. split; [|split].
  - unfold os_tokens_of in Eo.
    destruct (String.eqb goos "darwin") eqn:E1.
    { apply String.eqb_eq in E1. injection Eo as <-. left. split; [exact E1|].
      cbn [existsb] in Hos. rewrite orb_false_r in Hos.
      rewrite <- !orb_assoc. exact Hos. }
    destruct (String.eqb goos "linux") eqn:E2.
    { apply String.eqb_eq in E2. injection Eo as <-. right. left. split; [exact E2|].
      cbn [existsb] in Hos. now rewrite orb_false_r in Hos. }
    destruct (String.eqb goos "windows") eqn:E3; [|discriminate].
    apply String.eqb_eq in E3. injection Eo as <-. right. right. split; [exact E3|].
    cbn [existsb] in Hos. now rewrite orb_false_r in Hos.
  - unfold arch_tokens_of in Ea.
    destruct (String.eqb goarch "amd64") eqn:E1.
    { apply String.eqb_eq in E1. injection Ea as <-. left. split; [exact E1|].
      cbn [existsb] in Har. rewrite orb_false_r in Har.
      rewrite <- !orb_assoc. exact Har. }
    destruct (String.eqb goarch "arm64") eqn:E2; [|discriminate].
    apply String.eqb_eq in E2. injection Ea as <-. right. split; [exact E2|].
    cbn [existsb] in Har. now rewrite orb_false_r in Har.
  - apply negb_true_iff in Hex.
    unfold PyStr.endswith_any, excluded_suffixes in Hex. cbn [existsb] in Hex.
    repeat (apply orb_false_iff in Hex; destruct Hex as [? Hex]).
    repeat split; assumption.
Qed.

Lemma pick_asset_matches_target_witness :
  In (mkAsset (Some "bird_darwin_amd64.tar.gz") (Some 9000000)
        (Some "https://example.org/bird_darwin_amd64.tar.gz")) sample_assets
  /\ PyStr.endswith "bird_darwin_amd64.tar.gz" ".sha256" = false.
Proof.
  pose proof (pick_asset_matches_target sample_assets "darwin" "amd64"
                (mkAsset (Some "bird_darwin_amd64.tar.gz") (Some 9000000)
                   (Some "https://example.org/bird_darwin_amd64.tar.gz"))
                eq_refl) as H.
  cbv zeta in H. destruct H as (Hin & _ & _ & Hs & _).
  split; [exact Hin | exact Hs].
Defined.

(** ** The [win] alias inside [darwin] (C9) *)

Lemma contains_skip (t : string) (c : ascii) (n : string) :
  PyStr.contains t n = true -> PyStr.contains t (String c n) = true.
Proof. intros H. cbn [PyStr.contains]. rewrite H. apply orb_true_r. Qed.

Lemma startswith_darwin_win (n : string) :
  PyStr.startswith n "darwin" = true -> PyStr.contains "win" n = true.
Proof.
  intros H.
  destruct n as [|c1 [|c2 [|c3 [|c4 [|c5 [|c6 n]]]]]]; try discriminate H;
    cbn [PyStr.startswith] in H;
    repeat match type of H with
           | _ && _ = true => apply andb_true_iff in H; destruct H as [? H]
           end; try discriminate.
  repeat match goal with
         | E : Ascii.eqb _ _ = true |- _ => apply Ascii.eqb_eq in E; subst
         end.
  reflexivity.
Qed.

Lemma contains_darwin_win (n : string) :
  PyStr.contains "darwin" n = true -> PyStr.contains "win" n = true.
Proof.
  induction n as [|c n IH]; intros H.
  - discriminate H.
  - cbn [PyStr.contains] in H. apply orb_true_iff in H. destruct H as [H|H].
    + now apply startswith_darwin_win.
    + apply contains_skip. now apply IH.
Qed.

(** C9.  The windows alias "win" occurs inside "darwin": every name that
    holds "darwin" passes the windows OS-token test, and for the asset list
    holding only bird_darwin_amd64.tar.gz the Selector, asked for
    windows/amd64, returns that asset, whose name does not hold "windows". *)
Theorem windows_target_selects_darwin_asset :
  (forall name : string,
      PyStr.contains "darwin" (PyStr.lower name) = true ->
      _token_match name ["windows"; "win"] = true)
  /\ let a := mkAsset (Some "bird_darwin_amd64.tar.gz") (Some 9000000)
                (Some "https://example.org/bird_darwin_amd64.tar.gz") in
     os_tokens_of "windows" = Ok ["windows"; "win"]
     /\ _pick_asset [a] "windows" "amd64" = Ok (Some a)
     /\ PyStr.contains "windows" (PyStr.lower "bird_darwin_amd64.tar.gz") = false
     /\ PyStr.contains "win" (PyStr.lower "bird_darwin_amd64.tar.gz") = true
     /\ PyStr.contains "win" "darwin" = true.
Proof.
  split.
  - intros name H. unfold _token_match. cbn [existsb].
    rewrite (contains_darwin_win _ H). now rewrite !orb_true_r.
  - cbv zeta. repeat split; vm_compute; reflexivity.
Qed.

Lemma windows_target_selects_darwin_asset_witness :
  _token_match "Bird_Darwin_arm64.zip" ["windows"; "win"] = true.
Proof.
  apply (proj1 windows_target_selects_darwin_asset "Bird_Darwin_arm64.zip").
  reflexivity.
Defined.

(** ** Ties and input order (C10) *)

Lemma tuple_lt_irrefl_pair (p q : Z * Z) :
  tuple_lt p q = true -> tuple_lt p q = false -> False.
Proof. congruence. Qed.

Lemma earliest_minimal_unique (l l1 l1' l2 l2' : list asset) (a a' : asset) :
  earliest_minimal l l1 a l2 -> earliest_minimal l l1' a' l2' ->
  l1' = l1 /\ a' = a /\ l2' = l2.
Proof.
  unfold earliest_minimal. intros (-> & Hb & Ha) (He & Hb' & Ha').
  revert l1' He Hb'. induction l1 as [|x l1 IH]; intros l1' He Hb'.
  - destruct l1' as [|y l1']; simpl in He.
    + injection He as Ea El. subst. auto.
    + injection He as Ea El. subst y l2. exfalso.
      apply (tuple_lt_irrefl_pair (score a') (score a)).
      * apply Hb'. now left.
      * apply Ha. apply in_or_app. right. now left.
  - destruct l1' as [|y l1']; simpl in He.
    + injection He as Ea El. subst x l2'. exfalso.
      apply (tuple_lt_irrefl_pair (score a) (score a')).
      * apply Hb. now left.
      * apply Ha'. apply in_or_app. right. now left.
    + injection He as Ex El. subst y.
      destruct (IH (fun b Hin => Hb b (or_intror Hin)) l1' El
                  (fun b Hin => Hb' b (or_intror Hin))) as (E1 & E2 & E3).
      subst. auto.
Qed.

(** C10.  The selected asset is fixed by the asset list and the target: it is
    the candidate at the one position such that every candidate before it has
    a strictly larger tuple and no candidate after it has a strictly smaller
    one, i.e. the earliest of the candidates with the minimal tuple.  Swapping
    two candidates with the same tuple therefore changes the answer. *)
Theorem pick_asset_earliest_on_ties :
  (forall (assets : list asset) (goos goarch : string) (a : asset),
      _pick_asset assets goos goarch = Ok (Some a) ->
      exists os_tokens arch_tokens l1 l2,
        os_tokens_of goos = Ok os_tokens
        /\ arch_tokens_of goarch = Ok arch_tokens
        /\ earliest_minimal
             (List.filter (is_match os_tokens arch_tokens) assets) l1 a l2
        /\ (forall l1' a' l2',
              earliest_minimal
                (List.filter (is_match os_tokens arch_tokens) assets) l1' a' l2' ->
              l1' = l1 /\ a' = a /\ l2' = l2))
  /\ (score tie_first = score tie_second
      /\ _pick_asset [tie_first; tie_second] "linux" "amd64" = Ok (Some tie_first)
      /\ _pick_asset [tie_second; tie_first] "linux" "amd64" = Ok (Some tie_second)
      /\ tie_first <> tie_second).
Proof.
  split.
  - intros assets goos goarch a Hp.
    destruct (pick_asset_inv _ _ _ _ Hp) as (os_t & ar_t & l1 & l2 & Eo & Ea & Hf & H1 & H2).
    exists os_t, ar_t, l1, l2.
    assert (Hem : earliest_minimal (List.filter (is_match os_t ar_t) assets) l1 a l2)
      by (unfold earliest_minimal; auto).
    repeat split; try assumption;
      destruct (earliest_minimal_unique _ _ _ _ _ _ _ Hem H) as (? & ? & ?);
      assumption.
  - repeat split; try (vm_compute; reflexivity). discriminate.
Qed.

Lemma pick_asset_earliest_on_ties_witness :
  exists l1 l2,
    earliest_minimal
      (List.filter (is_match ["linux"] ["amd64"; "x86_64"; "x64"])
         [tie_first; tie_second]) l1 tie_first l2.
Proof.
  destruct (proj1 pick_asset_earliest_on_ties [tie_first; tie_second]
              "linux" "amd64" tie_first eq_refl)
    as (os_t & ar_t & l1 & l2 & Eo & Ea & Hem & _).
  vm_compute in Eo. vm_compute in Ea.
  injection Eo as <-. injection Ea as <-.
  exists l1, l2. exact Hem.
Defined.

(** ** Binary Locator (C5) *)

Lemma land_S_IXUSR (m : Z) :
  (Z.land m S_IXUSR =? 0) = negb (Z.testbit m 6).
Proof.
  unfold S_IXUSR. change 64 with (2 ^ 6).
  destruct (Z.testbit m 6) eqn:Eb; simpl.
  - apply Z.eqb_neq. intros H0.
    assert (Ht : Z.testbit (Z.land m (2 ^ 6)) 6 = true).
    { rewrite Z.land_spec, Eb, Z.pow2_bits_true; [reflexivity | lia]. }
    rewrite H0 in Ht. now rewrite Z.bits_0 in Ht.
  - apply Z.eqb_eq. apply Z.bits_inj'. intros n Hn.
    rewrite Z.land_spec, Z.bits_0.
    destruct (Z.eq_dec n 6) as [->|Hne].
    + now rewrite Eb.
    + rewrite (Z.pow2_bits_false 6 n) by lia. apply andb_false_r.
Qed.

Lemma find_preferred_find (preferred : list string) (es : list entry) :
  find_preferred preferred es
  = List.find (fun p => str_in (entry_name p) preferred) (List.filter is_file es).
Proof.
  induction es as [|p es IH]; cbn [find_preferred List.filter]; [reflexivity|].
  destruct (is_file p); cbn [negb List.find]; [|exact IH].
  destruct (str_in (entry_name p) preferred); [reflexivity | exact IH].
Qed.

Lemma find_executable_find (files : list entry) :
  find_executable files
  = List.find (fun p => PyStr.startswith (PyStr.lower (entry_name p)) "bird"
                        && Z.testbit (st_mode p) 6) files.
Proof.
  induction files as [|p files IH]; cbn [find_executable List.find]; [reflexivity|].
  rewrite land_S_IXUSR, negb_involutive, IH.
  rewrite (andb_comm (Z.testbit _ _)). reflexivity.
Qed.

Lemma str_in_singleton (x y : string) : str_in x [y] = String.eqb x y.
Proof. unfold str_in. cbn [existsb]. apply orb_false_r. Qed.

Lemma find_ext {A : Type} (f g : A -> bool) (l : list A) :
  (forall x, f x = g x) -> List.find f l = List.find g l.
Proof.
  intros H. induction l as [|x l IH]; simpl; [reflexivity|].
  now rewrite H, IH.
Qed.

Lemma find_bird_binary_refines (root : string) (tree : list node)
    (want_windows : bool) :
  _find_bird_binary root tree want_windows = locator_spec root tree want_windows.
Proof.
  unfold _find_bird_binary, locator_spec.
  rewrite find_preferred_find.
  rewrite (find_ext _ (fun p => String.eqb (entry_name p)
                                  (if want_windows then "bird.exe" else "bird"))).
  2: { intros p. destruct want_windows; apply str_in_singleton. }
  destruct (List.find _ _) as [p|]; [reflexivity|].
  rewrite find_executable_find.
  destruct (List.filter is_file (rglob root tree)) as [|f [|g fs]];
    destruct want_windows; reflexivity.
Qed.

(** C5.  The Locator is the ordered chain of strategies over the regular
    files of the tree, in [rglob] order: (1) the first file named exactly
    bird.exe (windows) or bird (otherwise); (2) failing that, the only regular
    file when there is exactly one, whatever its name; (3) failing that and
    only for a non-windows target, the first file whose lower-cased name
    starts with bird and whose owner-execute bit is set; (4) otherwise
    nothing. *)
Theorem find_bird_binary_strategies (root : string) (tree : list node)
    (want_windows : bool) :
  let files := List.filter is_file (rglob root tree) in
  let exact := if want_windows then "bird.exe" else "bird" in
  let by_name := List.find (fun p => String.eqb (entry_name p) exact) files in
  _find_bird_binary root tree want_windows = locator_spec root tree want_windows
  /\ (forall p, by_name = Some p ->
        _find_bird_binary root tree want_windows = Some p)
  /\ (forall f, by_name = None -> files = [f] ->
        _find_bird_binary root tree want_windows = Some f)
  /\ (by_name = None -> List.length files <> 1%nat -> want_windows = false ->
        _find_bird_binary root tree want_windows
        = List.find
            (fun p => PyStr.startswith (PyStr.lower (entry_name p)) "bird"
                      && Z.testbit (st_mode p) 6)
            files)
  /\ (by_name = None -> List.length files <> 1%nat -> want_windows = true ->
        _find_bird_binary root tree want_windows = None).
Proof.
  intros files exact by_name.
  split; [apply find_bird_binary_refines|].
  rewrite find_bird_binary_refines. unfold locator_spec.
  fold files. fold exact. fold by_name.
  repeat split.
  - intros p ->. reflexivity.
  - intros f -> ->. reflexivity.
  - intros -> Hlen ->.
    destruct (Nat.eqb (List.length files) 1) eqn:E; [|reflexivity].
    apply Nat.eqb_eq in E. contradiction.
  - intros -> Hlen ->.
    destruct (Nat.eqb (List.length files) 1) eqn:E; [|reflexivity].
    apply Nat.eqb_eq in E. contradiction.
Qed.

Lemma find_bird_binary_strategies_witness :
  _find_bird_binary "/tmp/scratch" payload_only_tree false
  = Some ("/tmp/scratch/pkg/payload.bin", File "payload.bin" 420 "ELF")
  /\ _find_bird_binary "/tmp/scratch" payload_only_tree true
     = Some ("/tmp/scratch/pkg/payload.bin", File "payload.bin" 420 "ELF").
Proof.
  split.
  - apply (proj1 (proj2 (proj2
             (find_bird_binary_strategies "/tmp/scratch" payload_only_tree false))));
      reflexivity.
  - apply (proj1 (proj2 (proj2
             (find_bird_binary_strategies "/tmp/scratch" payload_only_tree true))));
      reflexivity.
Defined.

(** ** The traversal guard (C2) *)

Lemma startswith_app (r x y : string) :
  PyStr.startswith (r +:+ x) (r +:+ y) = PyStr.startswith x y.
Proof.
  induction r as [|c r IH]; [reflexivity|].
  simpl.
  rewrite Ascii.eqb_refl. exact IH.
Qed.

Lemma startswith_app_l (x y : string) : PyStr.startswith (x +:+ y) x = true.
Proof.
  induction x as [|c x IH]; [reflexivity|].
  simpl.
  rewrite Ascii.eqb_refl. exact IH.
Qed.

Lemma startswith_refl (x : string) : PyStr.startswith x x = true.
Proof.
  induction x as [|c x IH]; [reflexivity|].
  cbn [PyStr.startswith]. rewrite Ascii.eqb_refl. exact IH.
Qed.

Lemma join_parts_cons (c d : string) (l : list string) :
  PyPath.join_parts (c :: d :: l) = c +:+ "/" +:+ PyPath.join_parts (d :: l).
Proof. reflexivity. Qed.

Lemma join_parts_prefix (d p : list string) :
  PyPath.parts_prefix d p = true ->
  PyStr.startswith (PyPath.join_parts p) (PyPath.join_parts d) = true.
Proof.
  revert p. induction d as [|x d IH]; intros p H.
  - reflexivity.
  - destruct p as [|y p]; [discriminate H|].
    cbn [PyPath.parts_prefix] in H. apply andb_true_iff in H.
    destruct H as [Hxy H]. apply String.eqb_eq in Hxy. subst y.
    destruct d as [|x' d].
    + destruct p as [|y p].
      * apply startswith_refl.
      * rewrite join_parts_cons. apply startswith_app_l.
    + destruct p as [|y p]; [discriminate H|].
      rewrite !join_parts_cons, !startswith_app. now apply IH.
Qed.

(** The guard lets every member through whose resolved destination is the
    scratch directory or lies below it. *)
Lemma guard_accepts_descendants (out_dir n : string) :
  PyPath.anchor out_dir <> "" ->
  PyPath.is_within (PyPath.resolve (PyPath.parse out_dir))
    (PyPath.resolve (PyPath.join (PyPath.parse out_dir) n)) = true ->
  member_is_safe out_dir n = true.
Proof.
  intros Habs H. unfold member_is_safe.
  unfold PyPath.is_within in H. apply andb_true_iff in H. destruct H as [Ha Hp].
  apply String.eqb_eq in Ha.
  set (d := PyPath.resolve (PyPath.parse out_dir)) in *.
  set (p := PyPath.resolve (PyPath.join (PyPath.parse out_dir) n)) in *.
  assert (Hd : PyPath.p_anchor d <> "").
  { unfold d, PyPath.resolve, PyPath.parse. cbn [PyPath.p_anchor].
    destruct (String.eqb (PyPath.anchor out_dir) "//"); [discriminate | exact Habs]. }
  unfold PyPath.to_str. rewrite <- Ha.
  destruct (PyPath.p_anchor d) as [|c r] eqn:E; [congruence|].
  rewrite startswith_app. now apply join_parts_prefix.
Qed.

Lemma guard_accepts_descendants_example :
  member_is_safe "/tmp/tmpab" "pkg/../bin/bird" = true.
Proof.
  apply guard_accepts_descendants; [discriminate | reflexivity].
Qed.

(** C2, at the failing input.  With the scratch directory /tmp/tmpab and the
    member ../tmpabc/evil, the resolved destination is /tmp/tmpabc/evil, which
    is not below the scratch directory; yet the guard, comparing the two path
    strings by prefix, accepts the member, and [_extract_to_dir] raises nothing
    and hands the archive to the library's [extractall], for a tar and for a
    zip alike.  The honest ../../evil is rejected. *)
Theorem traversal_guard_accepts_sibling_prefix :
  let out_dir := "/tmp/tmpab" in
  let name := "../tmpabc/evil" in
  let dest := PyPath.resolve (PyPath.join (PyPath.parse out_dir) name) in
  PyPath.to_str dest = "/tmp/tmpabc/evil"
  /\ PyPath.is_within (PyPath.resolve (PyPath.parse out_dir)) dest = false
  /\ member_is_safe out_dir name = true
  /\ traversal_guard "tar" out_dir [name] = Ok tt
  /\ _extract_to_dir sibling_archive "payload" "bird_linux_amd64.tar.gz" out_dir
     = tar_extractall sibling_archive "payload" out_dir
  /\ _extract_to_dir sibling_archive "payload" "bird_linux_amd64.zip" out_dir
     = zip_extractall sibling_archive "payload" out_dir
  /\ traversal_guard "tar" out_dir ["../../evil"]
     = Raise (RuntimeError "unsafe tar member path: ../../evil").
Proof. cbv zeta. repeat split; vm_compute; reflexivity. Qed.

(** ** Effects of one loop iteration *)

Lemma truthy_or_empty (o : option string) :
  PyStr.truthy (Some (PyStr.or_empty o)) = PyStr.truthy o.
Proof. destruct o as [[|c s]|]; reflexivity. Qed.

Lemma process_target_no_asset (w : World) (assets : list asset) (st : state)
    (goos goarch : string) (required : bool) :
  _pick_asset assets goos goarch = Ok None ->
  process_target w assets st (goos, goarch, required)
  = if required then (eprint (msg_no_asset goos goarch) st, Return 1)
    else (eprint (msg_no_asset goos goarch +:+ " (skipping)") st, Next).
Proof. intros H. unfold process_target. rewrite H. reflexivity. Qed.

Lemma process_target_invalid (w : World) (assets : list asset) (st : state)
    (goos goarch : string) (required : bool) (a : asset) :
  _pick_asset assets goos goarch = Ok (Some a) ->
  PyStr.truthy (a_browser_download_url a) = false
  \/ PyStr.truthy (a_name a) = false ->
  process_target w assets st (goos, goarch, required)
  = (eprint (msg_invalid goos goarch) st, Return 1).
Proof.
  intros H Hbad. unfold process_target. rewrite H, truthy_or_empty.
  destruct Hbad as [-> | ->]; [reflexivity | now rewrite orb_true_r].
Qed.

Lemma process_target_not_located (w : World) (assets : list asset) (st : state)
    (goos goarch : string) (required : bool) (a : asset) (payload : bytes)
    (tree : list node) :
  let name := PyStr.or_empty (a_name a) in
  let st1 := fresh_temp (eprint (msg_downloading name goos goarch) st) in
  _pick_asset assets goos goarch = Ok (Some a) ->
  PyStr.truthy (a_browser_download_url a) = true ->
  PyStr.truthy (a_name a) = true ->
  _download w (PyStr.or_empty (a_browser_download_url a)) = Ok payload ->
  _extract_to_dir (archives w) payload name (tempdir w (ntemp st)) = Ok tree ->
  _find_bird_binary (tempdir w (ntemp st)) tree (String.eqb goos "windows") = None ->
  process_target w assets st (goos, goarch, required)
  = if required then (eprint (msg_not_located name) st1, Return 1)
    else (eprint (msg_not_located name +:+ " (skipping)") st1, Next).
Proof.
  intros name st1 Hp Hu Hn Hd He Hf. unfold process_target.
  rewrite Hp, truthy_or_empty, Hu, Hn. cbn [negb orb].
  rewrite Hd. cbn [ntemp eprint]. fold name. rewrite He, Hf. reflexivity.
Qed.

Lemma diag_no_asset (goos goarch : string) : is_diag (msg_no_asset goos goarch).
Proof. reflexivity. Qed.

Lemma diag_invalid (goos goarch : string) : is_diag (msg_invalid goos goarch).
Proof. reflexivity. Qed.

Lemma diag_not_located (name : string) : is_diag (msg_not_located name).
Proof. reflexivity. Qed.

Create HintDb diag.
#[local] Hint Resolve diag_no_asset diag_invalid diag_not_located : diag.

Lemma process_target_effect (w : World) (assets : list asset) (st : state)
    (t : target) (st' : state) (fl : flow) :
  process_target w assets st t = (st', fl) -> iteration_effect st t st' fl.
Proof.
  destruct t as [[goos goarch] required]. unfold process_target.
  destruct (_pick_asset assets goos goarch) as [[a|]|e].
  - destruct (negb _ || negb _).
    { intros [= <- <-]. simpl. eauto 8 with diag. }
    destruct (_download w _) as [payload|e]; [|intros [= <- <-]; reflexivity].
    destruct (_extract_to_dir _ _ _ _) as [tree|e]; [|intros [= <- <-]; reflexivity].
    destruct (_find_bird_binary _ _ _) as [bird_path|].
    + destruct (copy2 w _ _); intros [= <- <-]; simpl; eauto.
    + destruct required; intros [= <- <-]; simpl; eauto 8 with diag.
  - destruct required; intros [= <- <-]; simpl; eauto 8 with diag.
  - intros [= <- <-]. reflexivity.
Qed.

(** ** Effects of the whole loop *)

Lemma staged_of_required (ts ks : list target) (t : target) :
  staged_of ts ks -> In t ts -> t_required t = true -> In t ks.
Proof.
  induction 1 as [|u ts ks _ IH|u ts ks Hu _ IH]; intros Hin Hr.
  - destruct Hin.
  - destruct Hin as [->|Hin]; [now left | right; auto].
  - destruct Hin as [->|Hin]; [congruence | auto].
Qed.

Lemma staged_of_count (ts ks : list target) (d : string) :
  staged_of ts ks ->
  (count_occ String.string_dec (map t_dst ks) d
   <= count_occ String.string_dec (map t_dst ts) d)%nat.
Proof.
  induction 1 as [|u ts ks _ IH|u ts ks Hu _ IH]; cbn [map count_occ].
  - lia.
  - destruct (String.string_dec (t_dst u) d); lia.
  - destruct (String.string_dec (t_dst u) d); lia.
Qed.

Lemma staged_of_all_required (ts ks : list target) :
  staged_of ts ks -> forallb t_required ts = true -> ks = ts.
Proof.
  induction 1 as [|u ts ks _ IH|u ts ks Hu _ IH]; simpl; intros Hall.
  - reflexivity.
  - apply andb_true_iff in Hall. destruct Hall as [_ Hall]. now rewrite IH.
  - rewrite Hu in Hall. discriminate.
Qed.

Lemma run_targets_effect (w : World) (assets : list asset) (ts : list target) :
  forall (st st' : state) (fl : flow),
    run_targets w assets st ts = (st', fl) -> loop_effect st ts st' fl.
Proof.
  induction ts as [|t ts IH]; intros st st' fl; cbn [run_targets].
  - intros [= <- <-]. exists []. split; [constructor | now rewrite app_nil_r].
  - destruct (process_target w assets st t) as [st1 fl1] eqn:Ep.
    apply process_target_effect in Ep.
    destruct fl1 as [|code|e].
    + intros Hr. apply IH in Hr. destruct fl as [|code|e]; cbn in *; [|assumption|exact I].
      destruct Hr as (ks & Hks & Hmap).
      destruct Ep as [(f & Hst & Hf)|(Hreq & Hst)]; rewrite Hst in Hmap.
      * exists (t :: ks). split; [now constructor|].
        rewrite Hmap, map_app, <- app_assoc. cbn. now rewrite Hf.
      * exists ks. split; [now constructor | assumption].
    + intros [= <- <-]. cbn in *. destruct Ep as (-> & _ & Hd). auto.
    + intros [= <- <-]. exact I.
Qed.

(** Once an iteration is bound to return, the loop does not run to its end. *)
Lemma run_targets_abort (w : World) (assets : list asset) (ts : list target)
    (t : target) :
  In t ts ->
  (forall st, exists st', process_target w assets st t = (st', Return 1)) ->
  forall st, snd (run_targets w assets st ts) <> Next.
Proof.
  intros Hin Hab. induction ts as [|u ts IH]; intros st; [destruct Hin|].
  cbn [run_targets].
  destruct Hin as [->|Hin].
  - destruct (Hab st) as [st' ->]. discriminate.
  - destruct (process_target w assets st u) as [st1 [|code|e]]; cbn; try discriminate.
    now apply IH.
Qed.

(** ** Misses of the Selector and of the Locator (C6) *)

(** C6.  When the Selector finds no asset for a target, or the Locator finds
    no binary after extraction, one more line goes to the error stream and
    nothing is staged; the iteration returns 1, ending the loop, exactly when
    the target is required, and otherwise the line carries the skip marker and
    the loop goes on with the next target. *)
Theorem miss_fatal_iff_required (w : World) (assets : list asset) (st : state)
    (goos goarch : string) (required : bool) (rest : list target) :
  selector_miss assets goos goarch
  \/ (exists name, locator_miss w assets st goos goarch name) ->
  exists st' pre msg,
    (msg = msg_no_asset goos goarch \/ exists name, msg = msg_not_located name)
    /\ stderr st' = pre ++ [if required then msg else msg +:+ " (skipping)"]
    /\ staged st' = staged st
    /\ (required = true ->
        process_target w assets st (goos, goarch, required) = (st', Return 1)
        /\ run_targets w assets st ((goos, goarch, required) :: rest)
           = (st', Return 1))
    /\ (required = false ->
        process_target w assets st (goos, goarch, required) = (st', Next)
        /\ run_targets w assets st ((goos, goarch, required) :: rest)
           = run_targets w assets st' rest)
    /\ (snd (process_target w assets st (goos, goarch, required)) = Return 1
        <-> required = true).
Proof.
  intros [Hs | (name & a & payload & tree & Hp & -> & Hu & Hn & Hd & He & Hf)].
  - pose proof (process_target_no_asset w assets st goos goarch required Hs) as E.
    cbn [run_targets]. rewrite E.
    exists (eprint (if required then msg_no_asset goos goarch
                    else msg_no_asset goos goarch +:+ " (skipping)") st),
      (stderr st), (msg_no_asset goos goarch).
    destruct required; cbn; repeat split; auto; try discriminate.
  - pose proof (process_target_not_located w assets st goos goarch required
                  a payload tree Hp Hu Hn Hd He Hf) as E.
    cbv zeta in E. cbn [run_targets]. rewrite E.
    set (name := PyStr.or_empty (a_name a)).
    set (st1 := fresh_temp (eprint (msg_downloading name goos goarch) st)).
    exists (eprint (if required then msg_not_located name
                    else msg_not_located name +:+ " (skipping)") st1),
      (stderr st1), (msg_not_located name).
    destruct required; cbn; repeat split; eauto; try discriminate.
Qed.

Lemma miss_fatal_iff_required_witness :
  (exists st',
      process_target (unix_world flag_off) unix_assets initial_state
        ("windows", "amd64", false) = (st', Next)
      /\ staged st' = [])
  /\ (exists st',
        process_target (serving_world flag_off [windows_zip_asset])
          [windows_zip_asset] initial_state ("windows", "amd64", true)
        = (st', Return 1)
        /\ staged st' = []).
Proof.
  split.
  - destruct (miss_fatal_iff_required (unix_world flag_off) unix_assets
                initial_state "windows" "amd64" false [] (or_introl eq_refl))
      as (st' & pre & msg & _ & _ & Hst & _ & Hopt & _).
    exists st'. split; [exact (proj1 (Hopt eq_refl)) | exact Hst].
  - destruct (miss_fatal_iff_required (serving_world flag_off [windows_zip_asset])
                [windows_zip_asset] initial_state "windows" "amd64" true [])
      as (st' & pre & msg & _ & _ & Hst & Hreq & _).
    + right. exists "bird-windows-x64.zip".
      exists windows_zip_asset, "https://example.org/bird-windows-x64.zip",
        [File "README.md" 420 "read me";
         File "bird" 493 "https://example.org/bird-windows-x64.zip"].
      repeat split; reflexivity.
    + exists st'. split; [exact (proj1 (Hreq eq_refl)) | exact Hst].
Defined.

(** ** How a run can end *)

Lemma eprint_not_nil (line : string) (st : state) : stderr (eprint line st) <> [].
Proof. cbn [eprint stderr]. intros H. now apply app_eq_nil in H as [_ H]. Qed.

Lemma main_cases (w : World) :
  (exists st e, main w = (st, Raised e))
  \/ (exists st pre line,
        main w = (st, Returned 1) /\ stderr st = pre ++ [line] /\ is_diag line)
  \/ (exists st rel a0 assets,
        main w = (st, Returned 0)
        /\ _http_json w (release_url w) = Ok rel
        /\ default [] (r_assets rel) = a0 :: assets
        /\ run_targets w (a0 :: assets) initial_state
             (targets (require_windows_of w)) = (st, Next)).
Proof.
  unfold main.
  destruct (_http_json w (release_url w)) as [rel|e]; [|left; eauto].
  destruct (default [] (r_assets rel)) as [|a0 assets] eqn:Ea.
  { right. left. exists (eprint msg_no_assets initial_state), [], msg_no_assets.
    repeat split. }
  destruct (mkdir w out_root) as [[]|e]; [|left; eauto].
  destruct (run_targets w (a0 :: assets) initial_state
              (targets (require_windows_of w))) as [st fl] eqn:Er.
  pose proof (run_targets_effect _ _ _ _ _ _ Er) as He.
  destruct fl as [|code|e]; cbn in He.
  - right. right. exists st, rel, a0, assets. auto.
  - destruct He as (-> & pre & line & Hl & Hd). right. left. eauto 6.
  - left. eauto.
Qed.

(** ** Always-fatal conditions (C8) *)

(** C8.  A release without assets makes the run print one line and exit with
    status 1; an iteration whose selected asset lacks a download URL or a
    name prints one line and returns 1 whether or not the target is required;
    and a run in which that befalls any of the targets exits with status 1
    with a non-empty error stream. *)
Theorem malformed_release_always_fatal (w : World) (rel : release) :
  _http_json w (release_url w) = Ok rel ->
  (default [] (r_assets rel) = [] ->
   run_script w = (1, eprint msg_no_assets initial_state))
  /\ (forall assets st goos goarch required a,
        _pick_asset assets goos goarch = Ok (Some a) ->
        PyStr.truthy (a_browser_download_url a) = false
        \/ PyStr.truthy (a_name a) = false ->
        process_target w assets st (goos, goarch, required)
        = (eprint (msg_invalid goos goarch) st, Return 1))
  /\ (forall goos goarch required a,
        In (goos, goarch, required) (targets (require_windows_of w)) ->
        _pick_asset (default [] (r_assets rel)) goos goarch = Ok (Some a) ->
        PyStr.truthy (a_browser_download_url a) = false
        \/ PyStr.truthy (a_name a) = false ->
        fst (run_script w) = 1 /\ stderr (snd (run_script w)) <> []).
Proof.
  intros Hrel. split; [|split].
  - intros Hempty. unfold run_script, main. rewrite Hrel, Hempty. reflexivity.
  - intros. eapply process_target_invalid; eassumption.
  - intros goos goarch required a Hin Hp Hbad.
    unfold run_script.
    destruct (main_cases w)
      as [(st & e & ->)|[(st & pre & line & -> & Hl & _)
                        |(st & rel' & a0 & assets & _ & Hrel' & Ea & Er)]].
    + split; [reflexivity | apply eprint_not_nil].
    + split; [reflexivity|]. cbn [snd]. rewrite Hl.
      intros H. now apply app_eq_nil in H as [_ H].
    + exfalso. rewrite Hrel in Hrel'. injection Hrel' as <-. rewrite Ea in Hp.
      pose proof (run_targets_abort w (a0 :: assets) _ _ Hin) as Hab.
      specialize (Hab (fun st0 => ex_intro _ _
                         (process_target_invalid w _ st0 goos goarch required a
                            Hp Hbad))
                      initial_state).
      rewrite Er in Hab. now apply Hab.
Qed.

Lemma malformed_release_always_fatal_witness :
  require_windows_of broken_windows_world = false
  /\ fst (run_script broken_windows_world) = 1
  /\ stderr (snd (run_script broken_windows_world)) <> [].
Proof.
  split; [reflexivity|].
  apply (proj2 (proj2 (malformed_release_always_fatal broken_windows_world
                         {| r_assets := Some (unix_assets ++ [broken_windows_asset]) |}
                         eq_refl))
           "windows" "amd64" false broken_windows_asset).
  - vm_compute. tauto.
  - reflexivity.
  - left. reflexivity.
Defined.

(** ** Exit status and staging (C4) *)

Lemma targets_dst_once (rw : bool) (goos goarch : string) (required : bool) :
  In (goos, goarch, required) (targets rw) ->
  count_occ String.string_dec (map t_dst (targets rw)) (dst_path goos goarch)
  = 1%nat.
Proof.
  unfold targets. cbn [In].
  intros [H|[H|[H|[H|[H|[H|[]]]]]]]; injection H as <- <- _; vm_compute; reflexivity.
Qed.

Lemma staged_exactly_once (w : World) (assets : list asset) (st : state)
    (rw : bool) (goos goarch : string) :
  run_targets w assets initial_state (targets rw) = (st, Next) ->
  In (goos, goarch, true) (targets rw) ->
  count_occ String.string_dec (map sf_dst (staged st)) (dst_path goos goarch)
  = 1%nat.
Proof.
  intros Hr Hin. apply run_targets_effect in Hr. destruct Hr as (ks & Hks & Hmap).
  cbn [initial_state staged map app] in Hmap. rewrite Hmap.
  pose proof (staged_of_count _ _ (dst_path goos goarch) Hks) as Hle.
  rewrite (targets_dst_once rw goos goarch true Hin) in Hle.
  assert (Hge : (count_occ String.string_dec (map t_dst ks) (dst_path goos goarch)
                 > 0)%nat).
  { apply count_occ_In.
    apply (in_map t_dst ks (goos, goarch, true)).
    now apply (staged_of_required _ _ _ Hks Hin). }
  lia.
Qed.

Lemma staged_at_most_once (w : World) (assets : list asset) (st : state)
    (rw : bool) (goos goarch : string) (required : bool) :
  run_targets w assets initial_state (targets rw) = (st, Next) ->
  In (goos, goarch, required) (targets rw) ->
  (count_occ String.string_dec (map sf_dst (staged st)) (dst_path goos goarch)
   <= 1)%nat.
Proof.
  intros Hr Hin. apply run_targets_effect in Hr. destruct Hr as (ks & Hks & Hmap).
  cbn [initial_state staged map app] in Hmap. rewrite Hmap.
  pose proof (staged_of_count _ _ (dst_path goos goarch) Hks) as Hle.
  now rewrite (targets_dst_once rw goos goarch required Hin) in Hle.
Qed.

Lemma run_targets_app (w : World) (assets : list asset) (l1 l2 : list target) :
  forall st,
    run_targets w assets st (l1 ++ l2)
    = match run_targets w assets st l1 with
      | (st', Next) => run_targets w assets st' l2
      | r => r
      end.
Proof.
  induction l1 as [|t l1 IH]; intros st; cbn [app run_targets]; [reflexivity|].
  destruct (process_target w assets st t) as [st1 [|code|e]]; [apply IH | | ]; reflexivity.
Qed.

Lemma fatal_at_aborts (w : World) (assets : list asset) (st : state)
    (t : target) :
  fatal_at w assets st t ->
  exists st', process_target w assets st t = (st', Return 1)
              \/ exists e, process_target w assets st t = (st', Throw e).
Proof.
  intros H. unfold process_target.
  destruct H as [goos goarch required e Hp
                |goos goarch Hp
                |goos goarch required a Hp Hbad
                |goos goarch required a e (Hp & Hu & Hn) Hd
                |goos goarch required a payload e (Hp & Hu & Hn) Hd He
                |goos goarch a payload tree (Hp & Hu & Hn) Hd He Hf
                |goos goarch required a payload tree bird_path e
                   (Hp & Hu & Hn) Hd He Hf Hc];
    rewrite Hp; try rewrite truthy_or_empty.
  - eauto.
  - eauto.
  - destruct Hbad as [-> | ->]; rewrite ?orb_true_r; cbn [negb orb]; eauto.
  - rewrite Hu, Hn. cbn [negb orb]. rewrite Hd. eauto.
  - rewrite Hu, Hn. cbn [negb orb ntemp eprint]. rewrite Hd, He. eauto.
  - rewrite Hu, Hn. cbn [negb orb ntemp eprint]. rewrite Hd, He, Hf. eauto.
  - rewrite Hu, Hn. cbn [negb orb ntemp eprint]. rewrite Hd, He, Hf, Hc. eauto.
Qed.

Lemma aborts_fatal_at (w : World) (assets : list asset) (st : state)
    (t : target) :
  snd (process_target w assets st t) <> Next -> fatal_at w assets st t.
Proof.
  destruct t as [[goos goarch] required]. unfold process_target.
  destruct (_pick_asset assets goos goarch) as [[a|]|e] eqn:Hp.
  - rewrite truthy_or_empty.
    destruct (PyStr.truthy (a_browser_download_url a)) eqn:Hu;
      [|intros _; apply (fatal_invalid_asset _ _ _ _ _ _ a Hp); now left].
    destruct (PyStr.truthy (a_name a)) eqn:Hn;
      [|intros _; apply (fatal_invalid_asset _ _ _ _ _ _ a Hp); now right].
    cbn [negb orb ntemp eprint].
    assert (Hs : selected assets goos goarch a) by (repeat split; assumption).
    destruct (_download w _) as [payload|e] eqn:Hd;
      [|intros _; exact (fatal_download _ _ _ _ _ _ _ _ Hs Hd)].
    destruct (_extract_to_dir _ _ _ _) as [tree|e] eqn:He;
      [|intros _; exact (fatal_extract _ _ _ _ _ _ _ _ _ Hs Hd He)].
    destruct (_find_bird_binary _ _ _) as [bird_path|] eqn:Hf.
    + destruct (copy2 w _ _) as [u|e] eqn:Hc; [intros H; now elim H|].
      intros _. exact (fatal_copy _ _ _ _ _ _ _ _ _ _ _ Hs Hd He Hf Hc).
    + destruct required; [|intros H; now elim H].
      intros _. exact (fatal_not_located _ _ _ _ _ _ _ _ Hs Hd He Hf).
  - destruct required; [|intros H; now elim H].
    intros _. now apply fatal_no_asset.
  - intros _. now apply (fatal_selector _ _ _ _ _ _ e).
Qed.

(** A loop that does not run to its end stopped at a fatal condition. *)
Lemma run_targets_stops_at_fatal (w : World) (assets : list asset)
    (ts : list target) :
  forall st,
    snd (run_targets w assets st ts) <> Next ->
    exists ts1 t ts2 st1,
      ts = ts1 ++ t :: ts2
      /\ run_targets w assets st ts1 = (st1, Next)
      /\ fatal_at w assets st1 t.
Proof.
  induction ts as [|t ts IH]; intros st; cbn [run_targets].
  - intros H. now elim H.
  - destruct (process_target w assets st t) as [st' fl] eqn:Ep.
    assert (Hfl : fl <> Next -> fatal_at w assets st t).
    { intros H. apply aborts_fatal_at. now rewrite Ep. }
    destruct fl as [|code|e].
    + intros H. destruct (IH st' H) as (ts1 & u & ts2 & st1 & -> & Hr & Hf).
      exists (t :: ts1), u, ts2, st1. cbn [app run_targets]. rewrite Ep.
      auto.
    + intros _. exists [], t, ts, st. cbn [app run_targets].
      repeat split. apply Hfl. discriminate.
    + intros _. exists [], t, ts, st. cbn [app run_targets].
      repeat split. apply Hfl. discriminate.
Qed.

(** C4.  The exit status is 0 or 1.  It is 0 only if every required target
    has exactly one staged file at its output path (and no target has more
    than one).  Every fatal condition ends the run with status 1: those met
    before the loop, and those of the iteration of any target the run gets
    to, required or not; conversely a run that exits with 1 met one of them.
    When the status is 1, either [main] returned 1 and the last line on the
    error stream is a diagnostic of the script, or an exception left [main]
    and the error stream ends in the interpreter's traceback for it.  A
    target that is not required may be left without a staged file in a run
    that exits with 0. *)
Theorem exit_zero_only_if_required_staged :
  (forall w : World,
      let code := fst (run_script w) in
      let st := snd (run_script w) in
      (code = 0 \/ code = 1)
      /\ (code = 0 ->
          forall goos goarch,
            In (goos, goarch, true) (targets (require_windows_of w)) ->
            count_occ String.string_dec (map sf_dst (staged st))
              (dst_path goos goarch) = 1%nat)
      /\ (code = 0 ->
          forall goos goarch required,
            In (goos, goarch, required) (targets (require_windows_of w)) ->
            (count_occ String.string_dec (map sf_dst (staged st))
               (dst_path goos goarch) <= 1)%nat)
      /\ (code = 1 ->
          (snd (main w) = Returned 1
           /\ exists pre line, stderr st = pre ++ [line] /\ is_diag line)
          \/ (exists e,
                snd (main w) = Raised e
                /\ stderr st
                   = stderr (fst (main w))
                     ++ ["Traceback (most recent call last):"; exn_line e]))
      /\ (fatal_setup w -> code = 1)
      /\ (forall rel ts1 t ts2 st1,
            reaches w rel ts1 t ts2 st1 ->
            fatal_at w (default [] (r_assets rel)) st1 t ->
            code = 1)
      /\ (code = 1 ->
          fatal_setup w
          \/ exists rel ts1 t ts2 st1,
               reaches w rel ts1 t ts2 st1
               /\ fatal_at w (default [] (r_assets rel)) st1 t))
  /\ (let w := unix_world flag_off in
      fst (run_script w) = 0
      /\ In ("windows", "amd64", false) (targets (require_windows_of w))
      /\ count_occ String.string_dec (map sf_dst (staged (snd (run_script w))))
           (dst_path "windows" "amd64") = 0%nat).
Proof.
  split.
  - intros w. cbv zeta.
    assert (Hsetup : fatal_setup w -> fst (run_script w) = 1).
    { intros [e He|rel Hrel Hn|rel e Hrel Hn Hm]; unfold run_script, main.
      - now rewrite He.
      - now rewrite Hrel, Hn.
      - rewrite Hrel. destruct (default [] (r_assets rel)) as [|a0 assets];
          [congruence|]. now rewrite Hm. }
    assert (Hreach : forall rel ts1 t ts2 st1,
               reaches w rel ts1 t ts2 st1 ->
               fatal_at w (default [] (r_assets rel)) st1 t ->
               fst (run_script w) = 1).
    { intros rel ts1 t ts2 st1 (Hrel & Hn & Hm & Hts & Hr) Hf.
      unfold run_script, main. rewrite Hrel.
      destruct (default [] (r_assets rel)) as [|a0 assets] eqn:Ea; [congruence|].
      rewrite Hm, Hts, run_targets_app, Hr. cbn [run_targets].
      destruct (fatal_at_aborts _ _ _ _ Hf) as [st' [E|[e E]]]; now rewrite E. }
    assert (Hconv : fst (run_script w) = 1 ->
               fatal_setup w
               \/ exists rel ts1 t ts2 st1,
                    reaches w rel ts1 t ts2 st1
                    /\ fatal_at w (default [] (r_assets rel)) st1 t).
    { unfold run_script, main.
      destruct (_http_json w (release_url w)) as [rel|e] eqn:Hrel;
        [|intros _; left; now apply (fatal_fetch w e)].
      destruct (default [] (r_assets rel)) as [|a0 assets] eqn:Ea;
        [intros _; left; now apply (fatal_no_assets w rel)|].
      destruct (mkdir w out_root) as [[]|e] eqn:Hm.
      2: { intros _. left. apply (fatal_mkdir w rel e); [assumption| |assumption].
           rewrite Ea. discriminate. }
      destruct (run_targets w (a0 :: assets) initial_state
                  (targets (require_windows_of w))) as [st fl] eqn:Er.
      assert (Hstop : fl <> Next ->
                exists ts1 t ts2 st1,
                  targets (require_windows_of w) = ts1 ++ t :: ts2
                  /\ run_targets w (a0 :: assets) initial_state ts1 = (st1, Next)
                  /\ fatal_at w (a0 :: assets) st1 t).
      { intros H. apply run_targets_stops_at_fatal. now rewrite Er. }
      assert (Hgo : fl <> Next ->
                fatal_setup w
                \/ exists rel0 ts1 t ts2 st1,
                     reaches w rel0 ts1 t ts2 st1
                     /\ fatal_at w (default [] (r_assets rel0)) st1 t).
      { intros H. destruct (Hstop H) as (ts1 & t & ts2 & st1 & Hts & Hr & Hf).
        right. exists rel, ts1, t, ts2, st1. unfold reaches. rewrite Ea.
        repeat split; try assumption. discriminate. }
      destruct fl as [|code|e]; cbn [fst].
      - discriminate.
      - intros _. apply Hgo. discriminate.
      - intros _. apply Hgo. discriminate. }
    revert Hsetup Hreach Hconv. unfold run_script.
    destruct (main_cases w)
      as [(st & e & E)|[(st & pre & line & E & Hl & Hd)
                        |(st & rel & a0 & assets & E & Hrel & Ea & Er)]];
      rewrite E; cbn [fst snd]; intros Hsetup Hreach Hconv.
    + split; [now right|]. split; [discriminate|]. split; [discriminate|].
      split; [|split; [assumption|split; assumption]].
      intros _. right. exists e. split; [reflexivity|].
      cbn [eprint stderr]. now rewrite <- app_assoc.
    + split; [now right|]. split; [discriminate|]. split; [discriminate|].
      split; [|split; [assumption|split; assumption]].
      intros _. left. split; [reflexivity|]. eauto.
    + split; [now left|]. split; [|split; [|split; [discriminate|]]].
      * intros _ goos goarch Hin. exact (staged_exactly_once _ _ _ _ _ _ Er Hin).
      * intros _ goos goarch required Hin.
        exact (staged_at_most_once _ _ _ _ _ _ _ Er Hin).
      * split; [assumption|split; assumption].
  - cbv zeta. split; [reflexivity|]. split; [vm_compute; tauto | reflexivity].
Qed.

Lemma exit_zero_only_if_required_staged_witness :
  count_occ String.string_dec
    (map sf_dst
       (staged (snd (run_script (unix_world flag_off)))))
    (dst_path "linux" "arm64") = 1%nat
  /\ require_windows_of timeout_world = false
  /\ fst (run_script timeout_world) = 1.
Proof.
  split; [|split; [reflexivity|]].
  - apply (proj1 (proj2 (proj1 exit_zero_only_if_required_staged
                           (unix_world flag_off)))).
    + reflexivity.
    + vm_compute. tauto.
  - apply (proj1 (proj2 (proj2 (proj2 (proj2 (proj2
             (proj1 exit_zero_only_if_required_staged timeout_world))))))
             {| r_assets := Some (unix_assets ++ [windows_zip_asset]) |}
             unix_targets ("windows", "amd64", false)
             [("windows", "arm64", false)]
             (fst (run_targets timeout_world (unix_assets ++ [windows_zip_asset])
                     initial_state unix_targets))).
    + repeat split; try reflexivity. discriminate.
    + apply (fatal_download _ _ _ _ _ _ windows_zip_asset
               (HostError "urllib.error.URLError: <urlopen error timed out>")).
      * repeat split; reflexivity.
      * reflexivity.
Defined.

(** ** The windows flag (C1) *)

(** C1, as amended.  When BIRDY_BUNDLE_WINDOWS is set and its value, stripped
    of surrounding white space by [str.strip()] (which [PyStr.strip] is on
    the strings of the model, U+0085 and U+00A0 included), is not "1", both
    windows targets are not required.  Then a run in which the Selector finds no asset for either
    windows target and the four other targets are staged exits with status 0,
    and it stages those four files and no bird_windows_* file. *)
Theorem windows_best_effort_when_flag_not_one (w : World) (v : string) :
  environ w !! "BIRDY_BUNDLE_WINDOWS" = Some v ->
  PyStr.strip v <> "1" ->
  require_windows_of w = false
  /\ targets (require_windows_of w)
     = unix_targets ++ [ ("windows", "amd64", false); ("windows", "arm64", false) ]
  /\ (forall rel a0 assets st4,
        _http_json w (release_url w) = Ok rel ->
        default [] (r_assets rel) = a0 :: assets ->
        mkdir w out_root = Ok tt ->
        _pick_asset (a0 :: assets) "windows" "amd64" = Ok None ->
        _pick_asset (a0 :: assets) "windows" "arm64" = Ok None ->
        run_targets w (a0 :: assets) initial_state unix_targets = (st4, Next) ->
        exists st,
          run_script w = (0, st)
          /\ map sf_dst (staged st) = map t_dst unix_targets
          /\ (forall f, In f (staged st) ->
                PyStr.startswith (sf_dst f) "bundled/bird/bird_windows_" = false)).
Proof.
  intros Hv Hne.
  assert (Hrw : require_windows_of w = false).
  { unfold require_windows_of, environ_get. rewrite Hv. cbn [default].
    now apply String.eqb_neq. }
  split; [exact Hrw|]. split; [now rewrite Hrw|].
  intros rel a0 assets st4 Hrel Ea Hmk Hw1 Hw2 Hr.
  unfold run_script, main. rewrite Hrel, Ea, Hmk, Hrw.
  change (targets false)
    with (unix_targets ++ [("windows", "amd64", false); ("windows", "arm64", false)]).
  rewrite run_targets_app, Hr. cbn [run_targets].
  rewrite (process_target_no_asset _ _ _ _ _ false Hw1).
  rewrite (process_target_no_asset _ _ _ _ _ false Hw2).
  eexists. split; [reflexivity|]. cbn [eprint staged].
  apply run_targets_effect in Hr. destruct Hr as (ks & Hks & Hmap).
  rewrite (staged_of_all_required _ _ Hks eq_refl) in Hmap.
  cbn [initial_state staged map app] in Hmap.
  split; [exact Hmap|].
  intros f Hf. apply (in_map sf_dst) in Hf. rewrite Hmap in Hf.
  cbn in Hf. destruct Hf as [<-|[<-|[<-|[<-|[]]]]]; reflexivity.
Qed.

Lemma windows_best_effort_when_flag_not_one_witness :
  exists st,
    run_script (unix_world flag_off) = (0, st)
    /\ map sf_dst (staged st) = map t_dst unix_targets.
Proof.
  pose proof (windows_best_effort_when_flag_not_one
                (unix_world flag_off) "0") as H.
  destruct H as (_ & _ & H);
    [vm_compute; reflexivity | vm_compute; discriminate |].
  destruct (H {| r_assets := Some unix_assets |}
              (mkAsset (Some "bird-macos-x64.tar.gz") (Some 9000000)
                 (Some "https://example.org/bird-macos-x64.tar.gz"))
              (tl unix_assets)
              (fst (run_targets (unix_world flag_off)
                      unix_assets initial_state unix_targets)))
    as (st & Hrun & Hdst & _); try reflexivity.
  exists st. split; assumption.
Defined.

(** C1, as stated, fails: with the value " 1" (a value other than "1") the
    windows targets are required, and the run over a release without windows
    assets, after staging the four other targets, exits with status 1. *)
Lemma padded_flag_requires_windows :
  let w := unix_world flag_padded_one in
  environ w !! "BIRDY_BUNDLE_WINDOWS" = Some " 1"
  /\ " 1" <> "1"
  /\ require_windows_of w = true
  /\ In ("windows", "amd64", true) (targets (require_windows_of w))
  /\ _pick_asset unix_assets "windows" "amd64" = Ok None
  /\ _pick_asset unix_assets "windows" "arm64" = Ok None
  /\ (forall b, In b unix_assets ->
        _token_match (PyStr.or_empty (a_name b)) ["windows"; "win"] = false)
  /\ map sf_dst (staged (snd (run_script w))) = map t_dst unix_targets
  /\ fst (run_script w) = 1
  /\ List.last (stderr (snd (run_script w))) ""
     = "vendor_bird: no matching asset for windows/amd64".
Proof.
  cbv zeta. repeat split; try discriminate; try (vm_compute; tauto); try reflexivity.
  intros b Hb. cbn in Hb.
  destruct Hb as [<-|[<-|[<-|[<-|[]]]]]; reflexivity.
Qed.

(** The default taken when BIRDY_BUNDLE_WINDOWS is unset is "1": windows
    targets are then required, against the script's own header, which
    documents the default as "0" (best-effort). *)
Lemma unset_flag_requires_windows :
  let w := unix_world ∅ in
  environ w !! "BIRDY_BUNDLE_WINDOWS" = None
  /\ require_windows_of w = true
  /\ fst (run_script w) = 1
  /\ List.last (stderr (snd (run_script w))) ""
     = "vendor_bird: no matching asset for windows/amd64".
Proof. cbv zeta. repeat split; vm_compute; reflexivity. Qed.

(** With the flag off and a release that names its macOS assets after
    [darwin], the windows targets pick the darwin tarballs (see C9), the
    Locator falls back on their single file, and the run exits with status 0
    having staged two [bird_windows_*] files. *)
Lemma darwin_assets_feed_windows_targets :
  let w := serving_world flag_off darwin_assets in
  require_windows_of w = false
  /\ fst (run_script w) = 0
  /\ map sf_dst (staged (snd (run_script w)))
     = map t_dst unix_targets
       ++ [ "bundled/bird/bird_windows_amd64.exe";
            "bundled/bird/bird_windows_arm64.exe" ].
Proof. cbv zeta. repeat split; vm_compute; reflexivity. Qed.

(** * Further properties *)

(** ** Request headers *)

Lemma auth_header_lookup (token : string) :
  auth_header token !! "Authorization"
  = if PyStr.truthy (Some token) then Some ("Bearer " +:+ token) else None.
Proof.
  unfold auth_header. destruct (PyStr.truthy (Some token)).
  - apply lookup_singleton_eq.
  - apply lookup_empty.
Qed.

Lemma auth_header_other (token key : string) :
  key <> "Authorization" -> auth_header token !! key = None.
Proof.
  intros Hk. unfold auth_header. destruct (PyStr.truthy (Some token)).
  - apply lookup_singleton_ne. congruence.
  - apply lookup_empty.
Qed.

(** X1.  Both requests carry an Authorization header exactly when a
    non-empty token is found, and then it is "Bearer " followed by the token.
    GITHUB_TOKEN wins when it is set and not empty; an empty or unset
    GITHUB_TOKEN falls through to GH_TOKEN.  The User-Agent is always sent,
    and only the metadata request sends Accept. *)
Theorem request_headers_spec (env : gmap string string) :
  let token := auth_token env in
  (PyStr.truthy (env !! "GITHUB_TOKEN") = true ->
   Some token = env !! "GITHUB_TOKEN")
  /\ (PyStr.truthy (env !! "GITHUB_TOKEN") = false ->
      PyStr.truthy (env !! "GH_TOKEN") = true ->
      Some token = env !! "GH_TOKEN")
  /\ (PyStr.truthy (env !! "GITHUB_TOKEN") = false ->
      PyStr.truthy (env !! "GH_TOKEN") = false -> token = "")
  /\ (token = "" ->
      http_json_headers env !! "Authorization" = None
      /\ download_headers env !! "Authorization" = None)
  /\ (token <> "" ->
      http_json_headers env !! "Authorization" = Some ("Bearer " +:+ token)
      /\ download_headers env !! "Authorization" = Some ("Bearer " +:+ token))
  /\ http_json_headers env !! "User-Agent" = Some "birdy-vendor-bird"
  /\ download_headers env !! "User-Agent" = Some "birdy-vendor-bird"
  /\ http_json_headers env !! "Accept" = Some "application/vnd.github+json"
  /\ download_headers env !! "Accept" = None.
Proof.
  cbv zeta. split; [|split; [|split]].
  - intros H. unfold auth_token, py_or. rewrite H. cbn [PyStr.truthy].
    destruct (env !! "GITHUB_TOKEN") as [[|c s]|]; try discriminate H. reflexivity.
  - intros H1 H2. unfold auth_token, py_or. rewrite H1, H2.
    destruct (env !! "GH_TOKEN") as [[|c s]|]; try discriminate H2. reflexivity.
  - intros H1 H2. unfold auth_token, py_or. rewrite H1, H2.
    destruct (env !! "GH_TOKEN") as [[|c s]|]; try discriminate H2; reflexivity.
  - set (token := auth_token env).
    assert (Hja : http_json_headers env !! "Authorization"
                  = auth_header token !! "Authorization").
    { unfold http_json_headers. fold token. rewrite lookup_union.
      rewrite lookup_insert_ne by discriminate.
      rewrite lookup_singleton_ne by discriminate.
      now destruct (auth_header token !! "Authorization"). }
    assert (Hda : download_headers env !! "Authorization"
                  = auth_header token !! "Authorization").
    { unfold download_headers. fold token. rewrite lookup_union.
      rewrite lookup_singleton_ne by discriminate.
      now destruct (auth_header token !! "Authorization"). }
    rewrite Hja, Hda, auth_header_lookup.
    split; [intros ->; split; reflexivity|].
    split; [intros Hne; destruct token; [congruence | split; reflexivity]|].
    split; [|split; [|split]].
    + unfold http_json_headers. fold token. rewrite lookup_union.
      rewrite auth_header_other by discriminate.
      rewrite lookup_insert_ne by discriminate.
      now rewrite lookup_singleton_eq.
    + unfold download_headers. fold token. rewrite lookup_union.
      rewrite auth_header_other by discriminate.
      now rewrite lookup_singleton_eq.
    + unfold http_json_headers. fold token. rewrite lookup_union.
      rewrite auth_header_other by discriminate.
      now rewrite lookup_insert_eq.
    + unfold download_headers. fold token. rewrite lookup_union.
      rewrite auth_header_other by discriminate.
      now rewrite lookup_singleton_ne by discriminate.
Qed.

Lemma request_headers_spec_witness :
  let env : gmap string string :=
    {[ "GITHUB_TOKEN" := ""; "GH_TOKEN" := "s3cret" ]} in
  Some (auth_token env) = env !! "GH_TOKEN"
  /\ http_json_headers env !! "Authorization" = Some "Bearer s3cret".
Proof.
  cbv zeta.
  pose proof (request_headers_spec {[ "GITHUB_TOKEN" := ""; "GH_TOKEN" := "s3cret" ]})
    as (_ & Hgh & _ & _ & Hset & _).
  split.
  - apply Hgh; reflexivity.
  - destruct Hset as [Hj _]; [vm_compute; discriminate|]. exact Hj.
Defined.

(** ** Execute bits *)

Lemma testbit_exec_mask (mode n : Z) :
  Z.testbit (Z.lor (Z.lor (Z.lor mode S_IXUSR) S_IXGRP) S_IXOTH) n
  = Z.testbit mode n || (n =? 6) || (n =? 3) || (n =? 0).
Proof.
  rewrite !Z.lor_spec. unfold S_IXUSR, S_IXGRP, S_IXOTH.
  change 64 with (2 ^ 6). change 8 with (2 ^ 3). change 1 with (2 ^ 0).
  destruct (Z.ltb_spec n 0) as [Hneg|Hpos].
  - rewrite !(Z.testbit_neg_r _ n) by assumption.
    replace (n =? 6) with false by (symmetry; apply Z.eqb_neq; lia).
    replace (n =? 3) with false by (symmetry; apply Z.eqb_neq; lia).
    replace (n =? 0) with false by (symmetry; apply Z.eqb_neq; lia).
    reflexivity.
  - rewrite !Z.pow2_bits_eqb by lia.
    rewrite (Z.eqb_sym 6), (Z.eqb_sym 3), (Z.eqb_sym 0). reflexivity.
Qed.

(** X2.  [_ensure_executable] never fails.  When the permission change goes
    through, the owner, group and other execute bits are set and every other
    bit of the mode is kept, so a second call changes nothing; when the host
    refuses it, the mode is left as it was. *)
Theorem ensure_executable_bits (w : World) (dst : string) (mode : Z) :
  let mode' := _ensure_executable w dst mode in
  (chmod_ok w dst = true ->
   Z.testbit mode' 6 = true /\ Z.testbit mode' 3 = true /\ Z.testbit mode' 0 = true
   /\ (forall n, n <> 6 -> n <> 3 -> n <> 0 -> Z.testbit mode' n = Z.testbit mode n)
   /\ (Z.land mode' S_IXUSR =? 0) = false)
  /\ (chmod_ok w dst = false -> mode' = mode)
  /\ (0 <= mode -> 0 <= mode')
  /\ _ensure_executable w dst mode' = mode'.
Proof.
  cbv zeta. unfold _ensure_executable.
  destruct (chmod_ok w dst) eqn:Ec.
  - split; [|split; [discriminate|split]].
    + intros _. rewrite land_S_IXUSR, !testbit_exec_mask.
      split; [now rewrite !orb_true_r|]. split; [now rewrite !orb_true_r|].
      split; [now rewrite !orb_true_r|]. split; [|now rewrite !orb_true_r].
      intros n H6 H3 H0. rewrite testbit_exec_mask.
      apply Z.eqb_neq in H6, H3, H0. rewrite H6, H3, H0.
      now rewrite !orb_false_r.
    + intros Hm. unfold S_IXUSR, S_IXGRP, S_IXOTH.
      repeat (apply Z.lor_nonneg; split); lia.
    + apply Z.bits_inj'. intros n _. rewrite !testbit_exec_mask.
      destruct (Z.testbit mode n), (n =? 6), (n =? 3), (n =? 0); reflexivity.
  - split; [discriminate|]. split; [reflexivity|]. split; [tauto|reflexivity].
Qed.

Lemma ensure_executable_bits_witness :
  Z.testbit (_ensure_executable (unix_world flag_off) "bundled/bird/bird_linux_amd64" 420) 6
  = true.
Proof.
  apply (proj1 (ensure_executable_bits (unix_world flag_off)
                  "bundled/bird/bird_linux_amd64" 420)).
  reflexivity.
Defined.

(** ** The Locator and the tree *)

Lemma node_nested_ind (P : node -> Prop) :
  (forall name mode content, P (File name mode content)) ->
  (forall name children, Forall P children -> P (Dir name children)) ->
  (forall name, P (Other name)) ->
  forall n, P n.
Proof.
  intros HF HD HO. fix IH 1. intros [name mode content|name children|name].
  - apply HF.
  - apply HD. induction children as [|c children IHc]; constructor.
    + apply IH.
    + apply IHc.
  - apply HO.
Qed.

Lemma app_assoc_str (a b c : string) : (a +:+ b) +:+ c = a +:+ (b +:+ c).
Proof.
  induction a as [|x a IH]; [reflexivity|].
  change (String x ((a +:+ b) +:+ c) = String x (a +:+ (b +:+ c))).
  now rewrite IH.
Qed.

Lemma startswith_trans (s p q : string) :
  PyStr.startswith s p = true -> PyStr.startswith p q = true ->
  PyStr.startswith s q = true.
Proof.
  revert s p. induction q as [|c q IH]; intros s p Hsp Hpq; [reflexivity|].
  destruct p as [|b p]; [discriminate Hpq|].
  destruct s as [|a s]; [discriminate Hsp|].
  cbn [PyStr.startswith] in *.
  apply andb_true_iff in Hsp. destruct Hsp as [Hba Hsp].
  apply andb_true_iff in Hpq. destruct Hpq as [Hcb Hpq].
  apply Ascii.eqb_eq in Hba, Hcb. subst. rewrite Ascii.eqb_refl.
  now apply (IH s p).
Qed.

Lemma app_nil_r_str (a : string) : a +:+ "" = a.
Proof.
  induction a as [|x a IH]; [reflexivity|].
  change (String x (a +:+ "") = String x a). now rewrite IH.
Qed.

Lemma child_dir_prefix (parent name rest : string) :
  PyStr.startswith ((parent +:+ "/" +:+ name) +:+ rest) (parent +:+ "/") = true.
Proof. rewrite app_assoc_str, startswith_app. reflexivity. Qed.

Lemma list_dir_in (parent : string) (children : list node) (e : entry) :
  In e (list_dir parent children) ->
  In (snd e) children /\ fst e = parent +:+ "/" +:+ entry_name e.
Proof.
  unfold list_dir. intros H. apply in_map_iff in H.
  destruct H as (n & <- & Hn). split; [exact Hn | reflexivity].
Qed.

(** Every path listed below a node lies in a directory below the parent and
    ends in the name of the entry; the entry is a node of the tree. *)
Lemma walk_in (n : node) :
  forall (parent : string) (e : entry),
    In e (walk parent n) ->
    (exists dir, fst e = dir +:+ "/" +:+ entry_name e
                 /\ PyStr.startswith dir (parent +:+ "/") = true)
    /\ match n with
       | Dir _ children => occurs (snd e) children
       | _ => False
       end.
Proof.
  induction n as [name mode content|name children IH|name] using node_nested_ind;
    intros parent e Hin; try (destruct Hin).
  cbn [walk] in Hin. apply in_app_or in Hin. destruct Hin as [Hin|Hin].
  - apply list_dir_in in Hin. destruct Hin as [Hc Hp]. split.
    + exists (parent +:+ "/" +:+ name). split; [exact Hp|].
      rewrite <- (app_nil_r_str (parent +:+ "/" +:+ name)).
      apply child_dir_prefix.
    + now apply occurs_here.
  - apply in_flat_map in Hin. destruct Hin as (c & Hc & Hin).
    rewrite List.Forall_forall in IH. destruct (IH c Hc _ _ Hin) as [(dir & Hp & Hd) Ho].
    split.
    + exists dir. split; [exact Hp|].
      apply (startswith_trans _ _ _ Hd). apply child_dir_prefix.
    + destruct c as [| cname cchildren |]; try contradiction.
      now apply (occurs_below _ cname cchildren).
Qed.

Lemma rglob_in (root : string) (tree : list node) (e : entry) :
  In e (rglob root tree) ->
  occurs (snd e) tree
  /\ exists dir, fst e = dir +:+ "/" +:+ entry_name e
                 /\ PyStr.startswith (dir +:+ "/") (root +:+ "/") = true.
Proof.
  unfold rglob. intros Hin. apply in_app_or in Hin. destruct Hin as [Hin|Hin].
  - apply list_dir_in in Hin. destruct Hin as [Hc Hp]. split.
    + now apply occurs_here.
    + exists root. split; [exact Hp | apply startswith_refl].
  - apply in_flat_map in Hin. destruct Hin as (c & Hc & Hin).
    destruct (walk_in c _ _ Hin) as [(dir & Hp & Hd) Ho]. split.
    + destruct c as [| cname cchildren |]; try contradiction.
      now apply (occurs_below _ cname cchildren).
    + exists dir. split; [exact Hp|].
      apply (startswith_trans _ dir); [apply startswith_app_l | exact Hd].
Qed.

(** Every node of the tree is listed. *)
Lemma occurs_rglob (x : node) (tree : list node) :
  occurs x tree -> forall root, exists p, In (p, x) (rglob root tree).
Proof.
  induction 1 as [l Hin|name children l Hd _ IH]; intros root.
  - exists (child_path root x). unfold rglob. apply in_or_app. left.
    unfold list_dir. now apply (in_map (fun n => (child_path root n, n))).
  - destruct (IH (root +:+ "/" +:+ name)) as [p Hp].
    exists p. unfold rglob at 1. apply in_or_app. right.
    apply in_flat_map. exists (Dir name children). split; [exact Hd | exact Hp].
Qed.

(** X3.  Whatever the Locator returns is a regular file of the scratch tree:
    it is one of the listed entries, it is a node of the tree, and its path is
    the name of the file inside a directory at or below the scratch root. *)
Theorem find_bird_binary_sound (root : string) (tree : list node)
    (want_windows : bool) (p : entry) :
  _find_bird_binary root tree want_windows = Some p ->
  In p (rglob root tree)
  /\ is_file p = true
  /\ occurs (snd p) tree
  /\ exists dir, fst p = dir +:+ "/" +:+ entry_name p
                 /\ PyStr.startswith (dir +:+ "/") (root +:+ "/") = true.
Proof.
  intros H.
  assert (Hf : In p (List.filter is_file (rglob root tree))).
  { rewrite find_bird_binary_refines in H. unfold locator_spec in H.
    destruct (List.find _ _) as [q|] eqn:E1.
    - injection H as <-. now apply find_some in E1.
    - destruct (Nat.eqb _ 1).
      + destruct (List.filter is_file (rglob root tree)) as [|f fs];
          [discriminate H|]. injection H as <-. now left.
      + destruct want_windows; [discriminate H|]. now apply find_some in H. }
  apply filter_In in Hf. destruct Hf as [Hin Hfile].
  destruct (rglob_in _ _ _ Hin) as [Ho Hp]. auto.
Qed.

Lemma find_bird_binary_sound_witness :
  is_file ("/tmp/scratch/pkg/payload.bin", File "payload.bin" 420 "ELF") = true.
Proof.
  apply (find_bird_binary_sound "/tmp/scratch" payload_only_tree false
           ("/tmp/scratch/pkg/payload.bin", File "payload.bin" 420 "ELF")).
  reflexivity.
Defined.

(** X4.  A regular file with the expected name is found wherever it sits in
    the scratch tree: if a file named bird.exe (windows) or bird (otherwise)
    occurs at any depth, the Locator returns a regular file of that name,
    whatever else the tree holds and whatever the permission bits are. *)
Theorem find_bird_binary_finds_exact_name (root : string) (tree : list node)
    (want_windows : bool) (mode : Z) (content : bytes) :
  let exact := if want_windows then "bird.exe" else "bird" in
  occurs (File exact mode content) tree ->
  exists p,
    _find_bird_binary root tree want_windows = Some p
    /\ entry_name p = exact /\ is_file p = true.
Proof.
  intros exact Ho.
  destruct (occurs_rglob _ _ Ho root) as [path Hin].
  assert (Hf : In (path, File exact mode content)
                  (List.filter is_file (rglob root tree)))
    by (apply filter_In; split; [exact Hin | reflexivity]).
  rewrite find_bird_binary_refines. unfold locator_spec. fold exact.
  destruct (List.find (fun p => String.eqb (entry_name p) exact)
              (List.filter is_file (rglob root tree))) as [q|] eqn:E.
  - exists q. apply find_some in E. destruct E as [Hq Hn].
    apply filter_In in Hq. apply String.eqb_eq in Hn. tauto.
  - exfalso. pose proof (find_none _ _ E _ Hf) as Hn.
    cbn in Hn. now rewrite String.eqb_refl in Hn.
Qed.

Lemma find_bird_binary_finds_exact_name_witness :
  exists p,
    _find_bird_binary "/tmp/scratch"
      [ File "LICENSE" 420 "MIT"; Dir "dist" [ Dir "bin" [ File "bird" 420 "ELF" ] ] ]
      false = Some p
    /\ entry_name p = "bird" /\ is_file p = true.
Proof.
  apply (find_bird_binary_finds_exact_name "/tmp/scratch"
           [ File "LICENSE" 420 "MIT"; Dir "dist" [ Dir "bin" [ File "bird" 420 "ELF" ] ] ]
           false 420 "ELF").
  apply (occurs_below _ "dist" [ Dir "bin" [ File "bird" 420 "ELF" ] ]);
    [right; now left|].
  apply (occurs_below _ "bin" [ File "bird" 420 "ELF" ]); [now left|].
  apply occurs_here. now left.
Defined.

(** ** The guard as a whole *)

Lemma check_member_ok (out_dir n : string) (b : bool) :
  check_member out_dir n = Ok b -> b = member_is_safe out_dir n.
Proof.
  unfold check_member, PyPath.try_resolve, member_is_safe.
  destruct (existsb PyStr.has_nul _); [discriminate|]. cbn [bind].
  destruct (existsb PyStr.has_nul _); [discriminate|]. cbn [bind].
  now intros [= <-].
Qed.

Lemma check_member_nul_free (out_dir n : string) :
  existsb PyStr.has_nul
    (PyPath.p_parts (PyPath.join (PyPath.parse out_dir) n)) = false ->
  existsb PyStr.has_nul (PyPath.p_parts (PyPath.parse out_dir)) = false ->
  check_member out_dir n = Ok (member_is_safe out_dir n).
Proof.
  intros H1 H2. unfold check_member, PyPath.try_resolve. now rewrite H1, H2.
Qed.

(** The guard passes over the members that pass the test. *)
Lemma traversal_guard_skip (kind out_dir : string) (pre rest : list string) :
  (forall m, In m pre -> check_member out_dir m = Ok true) ->
  traversal_guard kind out_dir (pre ++ rest) = traversal_guard kind out_dir rest.
Proof.
  induction pre as [|m pre IH]; intros Hpre; [reflexivity|].
  cbn [app traversal_guard]. rewrite (Hpre m (or_introl eq_refl)). cbn [bind negb].
  apply IH. intros m' Hm'. apply Hpre. now right.
Qed.

(** X5.  For an archive (tar or zip, by the lower-cased asset name) extracted
    into an absolute scratch directory, the guard is all or nothing.  If every member passes the check, what
    [_extract_to_dir] yields is what the library's [extractall] yields.
    Otherwise it stops at the first member that does not pass, before
    anything is extracted, whatever the library's [extractall] would have
    done: if that member fails the prefix test, [_extract_to_dir] raises the
    RuntimeError that names it; if [resolve()] raises on it (a name with a
    NUL byte), that exception leaves [_extract_to_dir]. *)
Theorem extract_to_dir_all_or_nothing (lib : Archives) (payload : bytes)
    (asset_name out_dir : string) (names : list string) :
  let lname := PyStr.lower asset_name in
  let is_tar := PyStr.endswith lname ".tar.gz" || PyStr.endswith lname ".tgz" in
  let is_zip := negb is_tar && PyStr.endswith lname ".zip" in
  let kind := if is_tar then "tar" else "zip" in
  PyPath.anchor out_dir <> "" ->
  is_tar || is_zip = true ->
  (if is_tar then tar_getmembers lib payload else zip_namelist lib payload)
  = Ok names ->
  ((forall n, In n names -> check_member out_dir n = Ok true) ->
   _extract_to_dir lib payload asset_name out_dir
   = if is_tar then tar_extractall lib payload out_dir
     else zip_extractall lib payload out_dir)
  /\ (forall pre n post,
        names = pre ++ n :: post ->
        (forall m, In m pre -> check_member out_dir m = Ok true) ->
        (check_member out_dir n = Ok false ->
         _extract_to_dir lib payload asset_name out_dir
         = Raise (RuntimeError ("unsafe " +:+ kind +:+ " member path: " +:+ n)))
        /\ (forall e, check_member out_dir n = Raise e ->
                      _extract_to_dir lib payload asset_name out_dir = Raise e)).
Proof.
  cbv zeta. intros _ Harch Hnames.
  assert (Hguard : forall kind,
             ((forall n, In n names -> check_member out_dir n = Ok true) ->
              traversal_guard kind out_dir names = Ok tt)
             /\ (forall pre n post,
                   names = pre ++ n :: post ->
                   (forall m, In m pre -> check_member out_dir m = Ok true) ->
                   (check_member out_dir n = Ok false ->
                    traversal_guard kind out_dir names
                    = Raise (RuntimeError
                               ("unsafe " +:+ kind +:+ " member path: " +:+ n)))
                   /\ (forall e, check_member out_dir n = Raise e ->
                                 traversal_guard kind out_dir names = Raise e))).
  { intros kind. split.
    - intros Hall. rewrite <- (app_nil_r names).
      now rewrite (traversal_guard_skip kind out_dir names [] Hall).
    - intros pre n post -> Hpre.
      rewrite (traversal_guard_skip kind out_dir pre (n :: post) Hpre).
      cbn [traversal_guard]. split.
      + intros ->. reflexivity.
      + intros e ->. reflexivity. }
  unfold _extract_to_dir. cbv zeta.
  destruct (PyStr.endswith (PyStr.lower asset_name) ".tar.gz"
            || PyStr.endswith (PyStr.lower asset_name) ".tgz") eqn:Et.
  - rewrite Hnames. cbn [bind]. destruct (Hguard "tar") as [Hok Hbad]. split.
    + intros Hall. now rewrite (Hok Hall).
    + intros pre n post Hn Hpre. destruct (Hbad pre n post Hn Hpre) as [Hf He].
      split; [intros H; now rewrite (Hf H) | intros e H; now rewrite (He e H)].
  - cbn [negb orb andb] in Harch. rewrite Harch, Hnames. cbn [bind].
    destruct (Hguard "zip") as [Hok Hbad]. split.
    + intros Hall. now rewrite (Hok Hall).
    + intros pre n post Hn Hpre. destruct (Hbad pre n post Hn Hpre) as [Hf He].
      split; [intros H; now rewrite (Hf H) | intros e H; now rewrite (He e H)].
Qed.

Lemma extract_to_dir_all_or_nothing_witness :
  _extract_to_dir climbing_archives "payload" "Bird-Linux-X64.ZIP" "/tmp/tmpab"
  = Raise (RuntimeError "unsafe zip member path: ../../evil").
Proof.
  apply (proj1 (proj2 (extract_to_dir_all_or_nothing climbing_archives
                         "payload" "Bird-Linux-X64.ZIP" "/tmp/tmpab"
                         ["bird"; "../../evil"; "README.md"]
                         ltac:(discriminate) eq_refl eq_refl)
                  ["bird"] "../../evil" ["README.md"] eq_refl
                  ltac:(intros m [<-|[]]; reflexivity))).
  reflexivity.
Defined.

(** ** Names the guard never rejects *)

Lemma normalize_app (stack a b : list string) :
  PyPath.normalize stack (a ++ b)
  = PyPath.normalize (rev (PyPath.normalize stack a)) b.
Proof.
  revert stack. induction a as [|c a IH]; intros stack; cbn [app PyPath.normalize].
  - now rewrite rev_involutive.
  - destruct (String.eqb c ".."); apply IH.
Qed.

Lemma normalize_plain (stack b : list string) :
  forallb (fun c => negb (String.eqb c "..")) b = true ->
  PyPath.normalize stack b = rev stack ++ b.
Proof.
  revert stack. induction b as [|c b IH]; intros stack Hb; cbn [PyPath.normalize].
  - now rewrite app_nil_r.
  - cbn [forallb] in Hb. apply andb_true_iff in Hb. destruct Hb as [Hc Hb].
    apply negb_true_iff in Hc. rewrite Hc, (IH _ Hb). cbn [rev].
    now rewrite <- app_assoc.
Qed.

Lemma parts_prefix_app (d b : list string) : PyPath.parts_prefix d (d ++ b) = true.
Proof.
  induction d as [|x d IH]; [reflexivity|].
  cbn [app PyPath.parts_prefix]. now rewrite String.eqb_refl, IH.
Qed.

Lemma split_slash_nul_free (s : string) :
  PyStr.has_nul s = false ->
  Forall (fun c => PyStr.has_nul c = false) (PyPath.split_slash s).
Proof.
  unfold PyStr.has_nul.
  induction s as [|c s IH]; cbn [PyPath.split_slash PyStr.has_char]; intros H.
  - constructor; [reflexivity | constructor].
  - apply orb_false_iff in H. destruct H as [Hc Hs]. specialize (IH Hs).
    destruct (Ascii.eqb c "/").
    + constructor; [reflexivity | exact IH].
    + destruct (PyPath.split_slash s) as [|h t].
      * constructor; [|constructor]. cbn [PyStr.has_char]. now rewrite Hc.
      * inversion IH as [|? ? Hh Ht]; subst. constructor; [|exact Ht].
        cbn [PyStr.has_char]. now rewrite Hc, Hh.
Qed.

Lemma parts_nul_free (s : string) :
  PyStr.has_nul s = false -> existsb PyStr.has_nul (PyPath.parts s) = false.
Proof.
  intros H. apply split_slash_nul_free in H. rewrite List.Forall_forall in H.
  destruct (existsb PyStr.has_nul (PyPath.parts s)) eqn:E; [|reflexivity].
  apply existsb_exists in E. destruct E as (c & Hc & Hn).
  unfold PyPath.parts in Hc. apply filter_In in Hc. destruct Hc as [Hc _].
  rewrite (H c Hc) in Hn. discriminate.
Qed.

(** X6.  The guard raises no false alarm on an ordinary archive: below an
    absolute scratch directory, a relative member name that holds no NUL
    byte and none of whose components is [..] always passes the check,
    however deep it is and whatever [.] or empty components it carries. *)
Theorem guard_accepts_plain_names (out_dir n : string) :
  PyPath.anchor out_dir <> "" ->
  PyStr.has_nul out_dir = false ->
  PyPath.anchor n = "" ->
  PyStr.has_nul n = false ->
  forallb (fun c => negb (String.eqb c "..")) (PyPath.parts n) = true ->
  check_member out_dir n = Ok true
  /\ forall kind, traversal_guard kind out_dir [n] = Ok tt.
Proof.
  intros Habs Hnul_d Hrel Hnul_n Hplain.
  assert (Hsafe : member_is_safe out_dir n = true).
  { apply guard_accepts_descendants; [exact Habs|].
    unfold PyPath.is_within, PyPath.resolve, PyPath.join, PyPath.parse.
    rewrite Hrel. cbn [PyPath.p_anchor PyPath.p_parts].
    rewrite String.eqb_refl. cbn [andb].
    rewrite normalize_app, (normalize_plain _ _ Hplain), rev_involutive.
    apply parts_prefix_app. }
  assert (Hcheck : check_member out_dir n = Ok true).
  { rewrite <- Hsafe. apply check_member_nul_free.
    - unfold PyPath.join, PyPath.parse. rewrite Hrel. cbn [PyPath.p_parts].
      now rewrite existsb_app, !parts_nul_free.
    - cbn [PyPath.parse PyPath.p_parts]. now apply parts_nul_free. }
  split; [exact Hcheck|]. intros kind. cbn [traversal_guard].
  now rewrite Hcheck.
Qed.

Lemma guard_accepts_plain_names_witness :
  check_member "/tmp/../tmp/tmpab" "./dist//bin/bird" = Ok true.
Proof.
  apply guard_accepts_plain_names; (discriminate || reflexivity).
Defined.

(** ** The paths the prefix test lets through *)

Lemma split_slash_slash_free (s : string) :
  Forall (fun c => slash_free c = true) (PyPath.split_slash s).
Proof.
  induction s as [|c s IH]; cbn [PyPath.split_slash].
  - constructor; [reflexivity | constructor].
  - destruct (Ascii.eqb c "/") eqn:Ec.
    + constructor; [reflexivity | exact IH].
    + destruct (PyPath.split_slash s) as [|h t].
      * constructor; [|constructor]. cbn [slash_free]. now rewrite Ec.
      * inversion IH as [|? ? Hh Ht]; subst. constructor; [|exact Ht].
        cbn [slash_free]. now rewrite Ec, Hh.
Qed.

Lemma parts_components (s : string) :
  Forall (fun c => is_component c = true) (PyPath.parts s).
Proof.
  unfold PyPath.parts. apply List.Forall_forall. intros c Hc.
  apply filter_In in Hc. destruct Hc as [Hin Hk].
  pose proof (split_slash_slash_free s) as Hs.
  rewrite List.Forall_forall in Hs. unfold is_component. rewrite (Hs c Hin).
  unfold PyPath.keep_part in Hk. apply negb_true_iff in Hk.
  apply orb_false_iff in Hk. destruct Hk as [-> _]. reflexivity.
Qed.

Lemma normalize_Forall (Q : string -> Prop) (todo : list string) :
  forall stack, Forall Q stack -> Forall Q todo ->
                Forall Q (PyPath.normalize stack todo).
Proof.
  induction todo as [|c todo IH]; intros stack Hs Ht; cbn [PyPath.normalize].
  - apply List.Forall_forall. intros y Hy. apply in_rev in Hy.
    rewrite List.Forall_forall in Hs. now apply Hs.
  - inversion Ht as [|? ? Hc Ht']; subst.
    destruct (String.eqb c "..").
    + apply IH; [|exact Ht']. destruct stack as [|z stack]; [constructor|].
      now inversion Hs.
    + apply IH; [|exact Ht']. now constructor.
Qed.

Lemma anchor_cases (s : string) :
  PyPath.anchor s = "" \/ PyPath.anchor s = "/" \/ PyPath.anchor s = "//".
Proof.
  destruct s as [|c1 s]; [now left|].
  destruct (Ascii.eqb_spec c1 "/") as [->|Hc1].
  2: { left. destruct c1 as [[] [] [] [] [] [] [] []]; try reflexivity.
       contradiction. }
  destruct s as [|c2 s]; [right; now left|].
  destruct (Ascii.eqb_spec c2 "/") as [->|Hc2].
  2: { right. left. destruct c2 as [[] [] [] [] [] [] [] []]; try reflexivity.
       contradiction. }
  destruct s as [|c3 s]; [right; now right|].
  destruct (Ascii.eqb_spec c3 "/") as [->|Hc3].
  - right. now left.
  - right. right. destruct c3 as [[] [] [] [] [] [] [] []]; try reflexivity.
    contradiction.
Qed.

Lemma app_cons_str (c : ascii) (s t : string) :
  String c s +:+ t = String c (s +:+ t).
Proof. reflexivity. Qed.

Lemma app_nil_l_str (t : string) : "" +:+ t = t.
Proof. reflexivity. Qed.

Ltac str_step H :=
  rewrite ?app_cons_str, ?app_nil_l_str in H; cbn [PyStr.startswith] in H.

Lemma startswith_sep_sep (x : string) :
  forall y t u,
    slash_free x = true -> slash_free y = true ->
    PyStr.startswith (y +:+ "/" +:+ t) (x +:+ "/" +:+ u) = true ->
    x = y /\ PyStr.startswith t u = true.
Proof.
  induction x as [|a x IH]; intros y t u Hx Hy H.
  - destruct y as [|c y]; str_step H;
      apply andb_true_iff in H; destruct H as [Hc H].
    + split; [reflexivity | exact H].
    + apply Ascii.eqb_eq in Hc. subst c. discriminate Hy.
  - destruct y as [|c y]; str_step H;
      apply andb_true_iff in H; destruct H as [Hac H];
      apply Ascii.eqb_eq in Hac; subst.
    + discriminate Hx.
    + cbn [slash_free] in Hx, Hy.
      apply andb_true_iff in Hx. destruct Hx as [_ Hx].
      apply andb_true_iff in Hy. destruct Hy as [_ Hy].
      destruct (IH y t u Hx Hy H) as [-> Htu]. auto.
Qed.

Lemma startswith_sep_end (x : string) :
  forall y t,
    slash_free x = true ->
    PyStr.startswith (y +:+ "/" +:+ t) x = true ->
    PyStr.startswith y x = true.
Proof.
  induction x as [|a x IH]; intros y t Hx H; [reflexivity|].
  destruct y as [|c y]; str_step H;
    apply andb_true_iff in H; destruct H as [Hac H].
  - apply Ascii.eqb_eq in Hac. subst a. discriminate Hx.
  - cbn [slash_free] in Hx. apply andb_true_iff in Hx. destruct Hx as [_ Hx].
    cbn [PyStr.startswith]. rewrite Hac. cbn [andb]. now apply (IH y t).
Qed.

Lemma startswith_end_sep (x : string) :
  forall y u,
    slash_free y = true ->
    PyStr.startswith y (x +:+ "/" +:+ u) = false.
Proof.
  induction x as [|a x IH]; intros y u Hy;
    rewrite ?app_cons_str, ?app_nil_l_str;
    (destruct y as [|c y]; [reflexivity|]);
    cbn [PyStr.startswith]; cbn [slash_free] in Hy;
    apply andb_true_iff in Hy; destruct Hy as [Hc Hy].
  - apply negb_true_iff in Hc. rewrite Ascii.eqb_sym, Hc. reflexivity.
  - pose proof (IH y u Hy) as E. rewrite ?app_cons_str, ?app_nil_l_str in E.
    rewrite E. apply andb_false_r.
Qed.

Lemma component_inv (c : string) :
  is_component c = true -> c <> "" /\ slash_free c = true.
Proof.
  unfold is_component. intros H. apply andb_true_iff in H. destruct H as [Hn Hs].
  apply negb_true_iff, String.eqb_neq in Hn. auto.
Qed.

Lemma startswith_nil_l (x : string) : x <> "" -> PyStr.startswith "" x = false.
Proof. destruct x; [congruence | reflexivity]. Qed.

(** Between rendered component lists, a string prefix is a prefix of the
    lists up to the last component, which need only begin the next one. *)
Lemma join_parts_prefix_inv (D : list string) :
  forall P,
    Forall (fun c => is_component c = true) D ->
    Forall (fun c => is_component c = true) P ->
    D <> [] ->
    PyStr.startswith (PyPath.join_parts P) (PyPath.join_parts D) = true ->
    exists d x y rest,
      D = d ++ [x] /\ P = d ++ y :: rest /\ PyStr.startswith y x = true.
Proof.
  induction D as [|x D IH]; intros P HD HP Hne H; [congruence|].
  inversion HD as [|? ? Hx HD']; subst.
  apply component_inv in Hx. destruct Hx as [Hxn Hxs].
  destruct D as [|x2 D].
  - cbn [PyPath.join_parts] in H.
    destruct P as [|y [|z r]].
    + cbn [PyPath.join_parts] in H. rewrite (startswith_nil_l _ Hxn) in H.
      discriminate.
    + exists [], x, y, []. auto.
    + rewrite join_parts_cons in H. apply startswith_sep_end in H; [|exact Hxs].
      exists [], x, y, (z :: r). auto.
  - rewrite join_parts_cons in H.
    destruct P as [|y [|z r]].
    + cbn [PyPath.join_parts] in H.
      rewrite startswith_nil_l in H; [discriminate|].
      destruct x; [congruence | discriminate].
    + cbn [PyPath.join_parts] in H.
      inversion HP as [|? ? Hy _]; subst.
      apply component_inv in Hy. destruct Hy as [_ Hys].
      rewrite (startswith_end_sep x y _ Hys) in H. discriminate.
    + rewrite join_parts_cons in H.
      inversion HP as [|? ? Hy HP']; subst.
      apply component_inv in Hy. destruct Hy as [_ Hys].
      apply startswith_sep_sep in H; [|assumption..].
      destruct H as [-> H].
      destruct (IH (z :: r) HD' HP' ltac:(discriminate) H)
        as (d & x' & y' & rest & Ed & Ep & Hs).
      exists (y :: d), x', y', rest. cbn [app]. rewrite Ed, Ep. auto.
Qed.

(** X7.  What the prefix test establishes about the paths it lets
    through.  Below an absolute scratch directory whose resolved path ends in
    the component [x] inside the directory [d], every member name that passes
    the check resolves, by the guard's own computation, to a path inside [d]
    whose next component begins with [x]: the path of the scratch directory,
    of something below it, or of something at or below a sibling whose name
    extends the scratch directory's name.  This bounds the member names the
    guard accepts, not what the library's [extractall] then writes (a link
    that the archive itself creates is followed by the library, not by the
    guard). *)
Theorem accepted_member_paths_extend_scratch_name (out_dir n : string)
    (d : list string) (x : string) :
  PyPath.anchor out_dir <> "" ->
  PyPath.p_parts (PyPath.resolve (PyPath.parse out_dir)) = d ++ [x] ->
  check_member out_dir n = Ok true ->
  let dest := PyPath.resolve (PyPath.join (PyPath.parse out_dir) n) in
  PyPath.p_anchor dest = "/"
  /\ exists y rest,
       PyPath.p_parts dest = d ++ y :: rest /\ PyStr.startswith y x = true.
Proof.
  intros Habs HD Hcheck dest.
  pose proof (check_member_ok _ _ _ Hcheck) as Hsafe. symmetry in Hsafe.
  unfold member_is_safe in Hsafe. fold dest in Hsafe.
  set (base := PyPath.resolve (PyPath.parse out_dir)) in *.
  assert (HcD : Forall (fun c => is_component c = true) (PyPath.p_parts base)).
  { apply normalize_Forall; [constructor | apply parts_components]. }
  assert (HcP : Forall (fun c => is_component c = true) (PyPath.p_parts dest)).
  { unfold dest, PyPath.resolve, PyPath.join. cbn [PyPath.p_parts].
    apply normalize_Forall; [constructor|].
    destruct (PyPath.anchor n); cbn [PyPath.p_parts PyPath.parse].
    - apply Forall_app. split; apply parts_components.
    - apply parts_components. }
  assert (Hcollapse : forall a, a = "/" \/ a = "//" ->
                                (if String.eqb a "//" then "/" else a) = "/").
  { intros a [-> | ->]; reflexivity. }
  assert (Hslash : forall s, PyPath.anchor s <> "" ->
                             PyPath.anchor s = "/" \/ PyPath.anchor s = "//").
  { intros s Hs. destruct (anchor_cases s) as [E|E]; [congruence | exact E]. }
  assert (Hbase_a : PyPath.p_anchor base = "/").
  { unfold base, PyPath.resolve, PyPath.parse. cbn [PyPath.p_anchor].
    apply Hcollapse, Hslash, Habs. }
  assert (Hdest_a : PyPath.p_anchor dest = "/").
  { unfold dest, PyPath.resolve, PyPath.join. cbn [PyPath.p_anchor].
    destruct (PyPath.anchor n) as [|c r] eqn:En;
      cbn [PyPath.p_anchor PyPath.parse].
    - apply Hcollapse, Hslash, Habs.
    - apply Hcollapse. rewrite <- En. apply Hslash. rewrite En. discriminate. }
  split; [exact Hdest_a|].
  assert (Hne : PyPath.p_parts base <> []).
  { rewrite HD. intros E. now apply app_eq_nil in E as [_ E]. }
  unfold PyPath.to_str in Hsafe. rewrite Hbase_a, Hdest_a in Hsafe.
  rewrite startswith_app in Hsafe.
  destruct (join_parts_prefix_inv _ _ HcD HcP Hne Hsafe)
    as (d' & x' & y & rest & Ed & Ep & Hs).
  rewrite HD in Ed. apply app_inj_tail in Ed. destruct Ed as [-> ->].
  exists y, rest. auto.
Qed.

Lemma accepted_member_paths_extend_scratch_name_witness :
  exists y rest,
    PyPath.p_parts
      (PyPath.resolve (PyPath.join (PyPath.parse "/tmp/tmpab") "//tmp/tmpabc/evil"))
    = ["tmp"] ++ y :: rest
    /\ PyStr.startswith y "tmpab" = true.
Proof.
  apply (proj2 (accepted_member_paths_extend_scratch_name "/tmp/tmpab"
                  "//tmp/tmpabc/evil" ["tmp"] "tmpab"
                  ltac:(discriminate) eq_refl eq_refl)).
Defined.

(** ** More on the Selector *)

Lemma pick_asset_by_candidates (assets assets' : list asset) (goos goarch : string)
    (os_tokens arch_tokens : list string) :
  os_tokens_of goos = Ok os_tokens ->
  arch_tokens_of goarch = Ok arch_tokens ->
  List.filter (is_match os_tokens arch_tokens) assets
  = List.filter (is_match os_tokens arch_tokens) assets' ->
  _pick_asset assets goos goarch = _pick_asset assets' goos goarch.
Proof.
  intros Eo Ea Hf. unfold _pick_asset. rewrite Eo, Ea. cbn [bind].
  rewrite !collect_matches_filter. cbn [app]. now rewrite Hf.
Qed.

(** X8.  For a known target, the Selector answers "none" exactly when no
    asset of the release is a candidate, and in particular for a release
    without assets. *)
Theorem pick_asset_none_iff (assets : list asset) (goos goarch : string)
    (os_tokens arch_tokens : list string) :
  os_tokens_of goos = Ok os_tokens ->
  arch_tokens_of goarch = Ok arch_tokens ->
  (_pick_asset assets goos goarch = Ok None
   <-> forall b, In b assets -> is_match os_tokens arch_tokens b = false)
  /\ _pick_asset [] goos goarch = Ok None.
Proof.
  intros Eo Ea. split; [split|].
  - intros Hn b Hb. destruct (is_match os_tokens arch_tokens b) eqn:Em; [|reflexivity].
    destruct (pick_asset_total _ _ _ _ _ _ Eo Ea Hb Em) as [a Ha]. congruence.
  - now apply pick_asset_none.
  - apply (pick_asset_none [] _ _ _ _ Eo Ea). intros b [].
Qed.

Lemma pick_asset_none_iff_witness :
  _pick_asset unix_assets "windows" "arm64" = Ok None.
Proof.
  apply (proj1 (pick_asset_none_iff unix_assets "windows" "arm64"
                  ["windows"; "win"] ["arm64"; "aarch64"] eq_refl eq_refl)).
  intros b Hb. cbn in Hb.
  destruct Hb as [<-|[<-|[<-|[<-|[]]]]]; reflexivity.
Defined.

(** X9.  Assets that are not candidates for the target (checksum files,
    assets of other platforms, records without a name) never influence the
    selection: inserting one anywhere in the asset list, or removing it,
    leaves the answer as it is. *)
Theorem pick_asset_ignores_non_candidates (l1 l2 : list asset) (x : asset)
    (goos goarch : string) (os_tokens arch_tokens : list string) :
  os_tokens_of goos = Ok os_tokens ->
  arch_tokens_of goarch = Ok arch_tokens ->
  is_match os_tokens arch_tokens x = false ->
  _pick_asset (l1 ++ x :: l2) goos goarch = _pick_asset (l1 ++ l2) goos goarch.
Proof.
  intros Eo Ea Hx. apply (pick_asset_by_candidates _ _ _ _ _ _ Eo Ea).
  rewrite !List.filter_app. cbn [List.filter]. now rewrite Hx.
Qed.

Lemma pick_asset_ignores_non_candidates_witness :
  _pick_asset sample_assets "darwin" "amd64"
  = _pick_asset (firstn 2 sample_assets) "darwin" "amd64".
Proof.
  apply (pick_asset_ignores_non_candidates (firstn 2 sample_assets) []
           (mkAsset (Some "bird_darwin_amd64.tar.gz.sha256") (Some 64)
              (Some "https://example.org/bird_darwin_amd64.tar.gz.sha256"))
           "darwin" "amd64" ["darwin"; "macos"; "mac"; "osx"]
           ["amd64"; "x86_64"; "x64"] eq_refl eq_refl eq_refl).
Defined.

(** X10.  An asset added at the end of the release changes the selection
    only if it ranks strictly better than the asset selected so far: with an
    equal or worse tuple, or when it is no candidate at all, the earlier
    choice stands. *)
Theorem pick_asset_keeps_earlier_choice (assets : list asset) (x a : asset)
    (goos goarch : string) :
  _pick_asset assets goos goarch = Ok (Some a) ->
  tuple_lt (score x) (score a) = false ->
  _pick_asset (assets ++ [x]) goos goarch = Ok (Some a).
Proof.
  intros Hp Hx.
  destruct (pick_asset_inv _ _ _ _ Hp)
    as (os_t & ar_t & l1 & l2 & Eo & Ea & Hf & H1 & H2).
  assert (Hin : In a (List.filter (is_match os_t ar_t) assets))
    by (rewrite Hf; apply in_or_app; right; now left).
  apply filter_In in Hin. destruct Hin as [Hin Hm].
  destruct (pick_asset_total (assets ++ [x]) _ _ _ _ a Eo Ea
              ltac:(apply in_or_app; now left) Hm) as [a' Ha'].
  rewrite Ha'. f_equal. f_equal.
  destruct (pick_asset_inv _ _ _ _ Ha')
    as (os_t' & ar_t' & l1' & l2' & Eo' & Ea' & Hf' & H1' & H2').
  rewrite Eo in Eo'. rewrite Ea in Ea'. injection Eo' as <-. injection Ea' as <-.
  set (tail := List.filter (is_match os_t ar_t) [x]) in *.
  assert (Hem : earliest_minimal (List.filter (is_match os_t ar_t) (assets ++ [x]))
                  l1 a (l2 ++ tail)).
  { unfold earliest_minimal. rewrite List.filter_app, Hf, <- app_assoc. fold tail.
    split; [reflexivity|]. split; [exact H1|].
    intros b Hb. apply in_app_or in Hb. destruct Hb as [Hb|Hb]; [now apply H2|].
    unfold tail in Hb. apply filter_In in Hb. destruct Hb as [[<-|[]] _].
    exact Hx. }
  assert (Hem' : earliest_minimal (List.filter (is_match os_t ar_t) (assets ++ [x]))
                   l1' a' l2')
    by (unfold earliest_minimal; auto).
  now destruct (earliest_minimal_unique _ _ _ _ _ _ _ Hem Hem') as (_ & -> & _).
Qed.

Lemma pick_asset_keeps_earlier_choice_witness :
  _pick_asset ([tie_first] ++ [tie_second]) "linux" "amd64" = Ok (Some tie_first).
Proof.
  apply pick_asset_keeps_earlier_choice; reflexivity.
Defined.

(** ** Traces of a run *)

Lemma diag_skipping (msg : string) : is_diag msg -> is_diag (msg +:+ " (skipping)").
Proof.
  unfold is_diag. intros H.
  apply (startswith_trans _ msg); [apply startswith_app_l | exact H].
Qed.

Lemma diag_downloading (name goos goarch : string) :
  is_diag (msg_downloading name goos goarch).
Proof. reflexivity. Qed.

Ltac trace_leaf lines :=
  split;
  [ exists lines; split;
    [ cbn; rewrite <- ?app_assoc, ?app_nil_r; reflexivity
    | split; [repeat constructor; auto using diag_skipping | cbn; lia] ]
  | cbn; eauto 8 ].

Lemma process_target_trace (w : World) (assets : list asset) (st : state)
    (t : target) :
  iteration_trace st t (fst (process_target w assets st t)).
Proof.
  destruct t as [[goos goarch] required]. unfold process_target, iteration_trace.
  pose proof (diag_no_asset goos goarch) as Dn.
  pose proof (diag_invalid goos goarch) as Di.
  destruct (_pick_asset assets goos goarch) as [[a|]|e].
  - set (name := PyStr.or_empty (a_name a)).
    pose proof (diag_downloading name goos goarch) as Dd.
    pose proof (diag_not_located name) as Dl.
    destruct (negb _ || negb _).
    { trace_leaf [msg_invalid goos goarch]. }
    destruct (_download w _) as [payload|e].
    2: { trace_leaf [msg_downloading name goos goarch]. }
    destruct (_extract_to_dir _ _ _ _) as [tree|e].
    2: { trace_leaf [msg_downloading name goos goarch]. }
    destruct (_find_bird_binary _ _ _) as [bird_path|].
    + destruct (copy2 w _ _); trace_leaf [msg_downloading name goos goarch].
    + destruct required.
      * trace_leaf [msg_downloading name goos goarch; msg_not_located name].
      * trace_leaf [msg_downloading name goos goarch;
                    msg_not_located name +:+ " (skipping)"].
  - destruct required.
    + trace_leaf [msg_no_asset goos goarch].
    + trace_leaf [msg_no_asset goos goarch +:+ " (skipping)"].
  - trace_leaf (@nil string).
Qed.

Lemma loop_trace_refl (st : state) (ts : list target) : loop_trace st ts st.
Proof.
  exists [], []. cbn [List.length map]. rewrite !app_nil_r.
  repeat split; try lia; [constructor | apply sublist_nil_l].
Qed.

Lemma loop_trace_step (st st1 st' : state) (t : target) (ts : list target) :
  iteration_trace st t st1 -> loop_trace st1 ts st' -> loop_trace st (t :: ts) st'.
Proof.
  intros [(lines1 & Hl1 & Hd1 & Hn1) Hs1]
         (lines & ks & Hl & Hd & Hn & Hsub & Hmap & Hlo & Hhi).
  destruct Hs1 as [[Hst Hnt]|(f & Hst & Hf & Hnt)].
  - exists (lines1 ++ lines), ks. rewrite Hl, Hl1, Hmap, Hst, <- app_assoc.
    split; [reflexivity|]. split; [now apply Forall_app|].
    rewrite length_app. cbn [List.length].
    repeat split; try lia; [now apply sublist_cons].
  - exists (lines1 ++ lines), (t :: ks).
    rewrite Hl, Hl1, Hmap, Hst, map_app, <- !app_assoc.
    split; [reflexivity|]. split; [now apply Forall_app|].
    rewrite length_app. cbn [List.length map app]. rewrite Hf.
    repeat split; try lia; [now apply sublist_skip].
Qed.

Lemma run_targets_trace (w : World) (assets : list asset) (ts : list target) :
  forall st, loop_trace st ts (fst (run_targets w assets st ts)).
Proof.
  induction ts as [|t ts IH]; intros st; cbn [run_targets].
  - apply loop_trace_refl.
  - pose proof (process_target_trace w assets st t) as Ht.
    destruct (process_target w assets st t) as [st1 [|code|e]]; cbn [fst] in *;
      apply (loop_trace_step _ st1 _ _ _ Ht);
      [apply IH | apply loop_trace_refl | apply loop_trace_refl].
Qed.

Lemma main_trace (w : World) :
  loop_trace initial_state (targets (require_windows_of w)) (fst (main w))
  \/ (fst (main w) = eprint msg_no_assets initial_state)
  \/ fst (main w) = initial_state.
Proof.
  unfold main.
  destruct (_http_json w (release_url w)) as [rel|e]; [|now right; right].
  destruct (default [] (r_assets rel)) as [|a0 assets]; [now right; left|].
  destruct (mkdir w out_root) as [[]|e]; [|now right; right].
  pose proof (run_targets_trace w (a0 :: assets)
                (targets (require_windows_of w)) initial_state) as Ht.
  destruct (run_targets w (a0 :: assets) initial_state
              (targets (require_windows_of w))) as [st [|code|e]];
    left; exact Ht.
Qed.


Lemma sublist_map {A B : Type} (f : A -> B) (l1 l2 : list A) :
  l1 `sublist_of` l2 -> map f l1 `sublist_of` map f l2.
Proof. induction 1; cbn [map]; constructor; assumption. Qed.

Lemma sublist_In {A : Type} (l1 l2 : list A) (x : A) :
  l1 `sublist_of` l2 -> In x l1 -> In x l2.
Proof.
  induction 1 as [|y l1 l2 _ IH|y l1 l2 _ IH]; intros Hin.
  - exact Hin.
  - destruct Hin as [->|Hin]; [now left | right; auto].
  - right. auto.
Qed.

Lemma canonical_paths (rw : bool) :
  List.NoDup (map t_dst (targets rw))
  /\ Forall (fun d => PyStr.startswith d "bundled/bird/bird_" = true)
       (map t_dst (targets rw)).
Proof.
  split.
  - cbn [targets map].
    repeat (apply List.NoDup_cons;
            [ vm_compute; intros H;
              repeat (destruct H as [H|H]; [discriminate H|]); exact H | ]).
    apply List.NoDup_nil.
  - cbn [targets map]. repeat (apply List.Forall_cons; [reflexivity|]).
    apply List.Forall_nil.
Qed.

(** X12.  However a run ends, the files it has written are output files of
    the six targets, in target order and each at most once: every destination
    lies below bundled/bird and is named bird_..., no destination is written
    twice, each staged file had a scratch directory of its own, and no more
    than six scratch directories are created. *)
Theorem staged_paths_canonical (w : World) :
  let st := fst (main w) in
  map sf_dst (staged st) `sublist_of` map t_dst (targets (require_windows_of w))
  /\ List.NoDup (map sf_dst (staged st))
  /\ (forall f, In f (staged st) ->
        PyStr.startswith (sf_dst f) "bundled/bird/bird_" = true)
  /\ (List.length (staged st) <= ntemp st)%nat
  /\ (ntemp st <= 6)%nat.
Proof.
  cbv zeta.
  assert (Hsub : map sf_dst (staged (fst (main w)))
                 `sublist_of` map t_dst (targets (require_windows_of w))
                 /\ (List.length (staged (fst (main w))) <= ntemp (fst (main w)))%nat
                 /\ (ntemp (fst (main w)) <= 6)%nat).
  { destruct (main_trace w)
      as [(lines & ks & _ & _ & _ & Hsub & Hmap & Hlo & Hhi)|[-> | ->]].
    - cbn [initial_state staged map app ntemp] in *.
      rewrite Hmap. split; [now apply sublist_map|].
      assert (El : List.length (staged (fst (main w))) = List.length ks).
      { rewrite <- (length_map sf_dst), Hmap. apply length_map. }
      rewrite El. split; [lia|].
      destruct (require_windows_of w); cbn in Hhi; lia.
    - cbn. split; [apply sublist_nil_l | lia].
    - cbn. split; [apply sublist_nil_l | lia]. }
  destruct Hsub as (Hsub & Hlen & Hn).
  destruct (canonical_paths (require_windows_of w)) as [Hnd Hpre].
  split; [exact Hsub|].
  split; [apply NoDup_ListNoDup, (sublist_NoDup _ _ (proj2 (NoDup_ListNoDup _) Hnd) Hsub)|].
  split; [|split; assumption].
  intros f Hf. rewrite List.Forall_forall in Hpre. apply Hpre.
  apply (sublist_In _ _ _ Hsub). now apply in_map.
Qed.

(** X13.  With the windows targets required (the flag strips to "1", or is
    unset), a run in which [main] returns 0 has staged exactly the six output
    files, in the order of the targets. *)
Theorem exit_zero_stages_all_six (w : World) (st : state) :
  require_windows_of w = true ->
  main w = (st, Returned 0) ->
  map sf_dst (staged st)
  = [ "bundled/bird/bird_darwin_amd64"; "bundled/bird/bird_darwin_arm64";
      "bundled/bird/bird_linux_amd64"; "bundled/bird/bird_linux_arm64";
      "bundled/bird/bird_windows_amd64.exe";
      "bundled/bird/bird_windows_arm64.exe" ].
Proof.
  intros Hrw Hm.
  destruct (main_cases w)
    as [(st' & e & E)|[(st' & pre & line & E & _)
                      |(st' & rel & a0 & assets & E & _ & _ & Er)]];
    rewrite E in Hm; try discriminate. injection Hm as <-.
  rewrite Hrw in Er. apply run_targets_effect in Er.
  destruct Er as (ks & Hks & Hmap).
  rewrite (staged_of_all_required _ _ Hks eq_refl) in Hmap. exact Hmap.
Qed.

Lemma exit_zero_stages_all_six_witness :
  List.length (staged (fst (main (serving_world ∅ six_assets)))) = 6%nat.
Proof.
  pose proof (exit_zero_stages_all_six (serving_world ∅ six_assets)
                (fst (main (serving_world ∅ six_assets)))) as H.
  rewrite <- (length_map sf_dst), H; [reflexivity | | ]; vm_compute; reflexivity.
Defined.

(** ** Selector, Extractor and Locator together *)

Lemma os_tokens_nonempty (goos : string) (os_tokens : list string) :
  os_tokens_of goos = Ok os_tokens ->
  forallb (fun t => negb (String.eqb t "")) os_tokens = true.
Proof.
  unfold os_tokens_of.
  destruct (String.eqb goos "darwin"); [intros [= <-]; reflexivity|].
  destruct (String.eqb goos "linux"); [intros [= <-]; reflexivity|].
  destruct (String.eqb goos "windows"); [intros [= <-]; reflexivity|].
  discriminate.
Qed.

Lemma token_match_empty_name (tokens : list string) :
  forallb (fun t => negb (String.eqb t "")) tokens = true ->
  _token_match "" tokens = false.
Proof.
  unfold _token_match. cbn [PyStr.lower].
  induction tokens as [|t tokens IH]; cbn [forallb existsb]; [reflexivity|].
  intros H. apply andb_true_iff in H. destruct H as [Ht H].
  rewrite (IH H), orb_false_r. destruct t; [discriminate Ht | reflexivity].
Qed.

Lemma pick_asset_has_name_aux (assets : list asset) (goos goarch : string)
    (a : asset) :
  _pick_asset assets goos goarch = Ok (Some a) -> PyStr.truthy (a_name a) = true.
Proof.
  intros Hp.
  destruct (pick_asset_inv _ _ _ _ Hp) as (os_t & ar_t & l1 & l2 & Eo & _ & Hf & _).
  assert (Hin : In a (List.filter (is_match os_t ar_t) assets))
    by (rewrite Hf; apply in_or_app; right; now left).
  apply filter_In in Hin. destruct Hin as [_ Hm].
  unfold is_match in Hm. apply andb_true_iff in Hm. destruct Hm as [_ Hm].
  apply andb_true_iff in Hm. destruct Hm as [Hos _].
  destruct (a_name a) as [[|c s]|]; try reflexivity; cbn [PyStr.or_empty] in Hos;
    rewrite (token_match_empty_name _ (os_tokens_nonempty _ _ Eo)) in Hos;
    discriminate.
Qed.

(** X14.  The Selector never returns an asset without a name: a record
    whose name is missing, null or empty is no candidate for any target.  So
    of the two tests [not url or not name] in [main] only the one on the
    download URL can fire: the iteration ends on the "invalid asset" line
    exactly when the selected asset has no download URL. *)
Theorem pick_asset_has_name (assets : list asset) (goos goarch : string)
    (a : asset) :
  _pick_asset assets goos goarch = Ok (Some a) ->
  PyStr.truthy (a_name a) = true
  /\ forall (w : World) (st : state) (required : bool),
       process_target w assets st (goos, goarch, required)
       = (eprint (msg_invalid goos goarch) st, Return 1)
       <-> PyStr.truthy (a_browser_download_url a) = false.
Proof.
  intros Hp. pose proof (pick_asset_has_name_aux _ _ _ _ Hp) as Hname.
  split; [exact Hname|].
  intros w st required. split.
  - intros E. destruct (PyStr.truthy (a_browser_download_url a)) eqn:Hu;
      [exfalso | reflexivity].
    unfold process_target in E.
    rewrite Hp, truthy_or_empty, Hu, Hname in E. cbn [negb orb] in E.
    destruct (_download w _); [|discriminate E].
    destruct (_extract_to_dir _ _ _ _); [|discriminate E].
    destruct (_find_bird_binary _ _ _).
    + destruct (copy2 w _ _); discriminate E.
    + destruct required; [|discriminate E].
      apply (f_equal (fun p => ntemp (fst p))) in E. cbn in E. lia.
  - intros Hu. apply (process_target_invalid _ _ _ _ _ _ _ Hp). now left.
Qed.

Lemma pick_asset_has_name_witness :
  PyStr.truthy (a_name tie_first) = true.
Proof.
  apply (proj1 (pick_asset_has_name [tie_first; tie_second] "linux" "amd64"
                  tie_first eq_refl)).
Defined.

Lemma format_rank_inv (a : asset) :
  let n := PyStr.lower (PyStr.or_empty (a_name a)) in
  let is_tar := PyStr.endswith n ".tar.gz" || PyStr.endswith n ".tgz" in
  (format_rank a = 0 -> is_tar = true)
  /\ (format_rank a = 1 -> is_tar = false /\ PyStr.endswith n ".zip" = true)
  /\ (format_rank a = 2 -> is_tar = false /\ PyStr.endswith n ".zip" = false).
Proof.
  cbv zeta. unfold format_rank, score. cbn [fst].
  destruct (PyStr.endswith _ ".tar.gz" || PyStr.endswith _ ".tgz");
    [|destruct (PyStr.endswith _ ".zip")];
    repeat split; intros; try discriminate; reflexivity.
Qed.

(** X15.  The Extractor treats an asset the way the Selector ranked it: an
    asset of format rank 0 is opened as a tar archive and one of rank 1 as a
    zip archive (members listed, guard run, then the library's extraction),
    and an asset of rank 2 is written as it is, as the single file [bird],
    without consulting the archive libraries. *)
Theorem extractor_follows_rank (lib : Archives) (payload : bytes) (a : asset)
    (out_dir : string) :
  let name := PyStr.or_empty (a_name a) in
  (format_rank a = 0 ->
   _extract_to_dir lib payload name out_dir
   = (let* names := tar_getmembers lib payload in
      let* _u := traversal_guard "tar" out_dir names in
      tar_extractall lib payload out_dir))
  /\ (format_rank a = 1 ->
      _extract_to_dir lib payload name out_dir
      = (let* names := zip_namelist lib payload in
         let* _u := traversal_guard "zip" out_dir names in
         zip_extractall lib payload out_dir))
  /\ (format_rank a = 2 ->
      _extract_to_dir lib payload name out_dir
      = Ok [File "bird" (write_mode lib) payload])
  /\ (format_rank a = 0 \/ format_rank a = 1 \/ format_rank a = 2).
Proof.
  cbv zeta. destruct (format_rank_inv a) as (H0 & H1 & H2). cbv zeta in H0, H1, H2.
  unfold _extract_to_dir. cbv zeta. split; [|split; [|split]].
  - intros E. now rewrite (H0 E).
  - intros E. destruct (H1 E) as [-> ->]. reflexivity.
  - intros E. destruct (H2 E) as [-> ->]. reflexivity.
  - unfold format_rank, score. cbn [fst].
    destruct (PyStr.endswith _ ".tar.gz" || PyStr.endswith _ ".tgz");
      [|destruct (PyStr.endswith _ ".zip")]; auto.
Qed.

Lemma extractor_follows_rank_witness :
  _extract_to_dir plain_archives "ELF" "bird-linux-x64" "/tmp/tmpab"
  = Ok [File "bird" 420 "ELF"].
Proof.
  apply (proj1 (proj2 (proj2 (extractor_follows_rank plain_archives "ELF"
                                raw_asset "/tmp/tmpab")))).
  reflexivity.
Defined.

(** X16.  A raw asset goes through verbatim: when the selected asset has
    format rank 2 and a download URL, the download succeeds and the copy into
    the output directory succeeds, the iteration stages one file at the
    target's output path whose content is the downloaded payload, found as
    [bird] in the scratch directory, for a windows target as for any other,
    whatever the archive libraries would do. *)
Theorem raw_asset_staged_verbatim (w : World) (assets : list asset) (st : state)
    (goos goarch : string) (required : bool) (a : asset) (payload : bytes) :
  let name := PyStr.or_empty (a_name a) in
  let src := tempdir w (ntemp st) +:+ "/" +:+ "bird" in
  let dst := dst_path goos goarch in
  _pick_asset assets goos goarch = Ok (Some a) ->
  format_rank a = 2 ->
  PyStr.truthy (a_browser_download_url a) = true ->
  _download w (PyStr.or_empty (a_browser_download_url a)) = Ok payload ->
  copy2 w src dst = Ok tt ->
  process_target w assets st (goos, goarch, required)
  = (stage {| sf_dst := dst;
              sf_src := src;
              sf_mode := _ensure_executable w dst (write_mode (archives w));
              sf_content := payload |}
       (fresh_temp (eprint (msg_downloading name goos goarch) st)),
     Next).
Proof.
  intros name src dst Hp Hr Hu Hd Hc. subst name.
  pose proof (pick_asset_has_name_aux _ _ _ _ Hp) as Hn.
  destruct (format_rank_inv a) as (_ & _ & H2). cbv zeta in H2.
  destruct (H2 Hr) as [Ht Hz].
  unfold process_target. rewrite Hp, truthy_or_empty, Hu, Hn. cbn [negb orb].
  rewrite Hd. unfold _extract_to_dir. cbv zeta. rewrite Ht, Hz.
  cbn [ntemp eprint fresh_temp].
  assert (Hfind : _find_bird_binary (tempdir w (ntemp st))
                    [File "bird" (write_mode (archives w)) payload]
                    (String.eqb goos "windows")
                  = Some (src, File "bird" (write_mode (archives w)) payload)).
  { destruct (String.eqb goos "windows"); reflexivity. }
  rewrite Hfind. cbn [fst snd st_mode]. fold src dst. rewrite Hc. reflexivity.
Qed.

Lemma raw_asset_staged_verbatim_witness :
  snd (process_target (serving_world flag_off [raw_asset]) [raw_asset]
         initial_state ("linux", "amd64", true)) = Next.
Proof.
  rewrite (raw_asset_staged_verbatim (serving_world flag_off [raw_asset])
             [raw_asset] initial_state "linux" "amd64" true raw_asset
             "https://example.org/bird-linux-x64");
    reflexivity.
Defined.

(** ** No rollback *)

Lemma run_targets_grows (w : World) (assets : list asset) (ts : list target) :
  forall st,
  exists fs lines,
    staged (fst (run_targets w assets st ts)) = staged st ++ fs
    /\ stderr (fst (run_targets w assets st ts)) = stderr st ++ lines.
Proof.
  induction ts as [|t ts IH]; intros st; cbn [run_targets].
  - exists [], []. cbn [fst]. now rewrite !app_nil_r.
  - pose proof (process_target_trace w assets st t) as Ht.
    destruct (process_target w assets st t) as [st1 fl1]. cbn [fst] in Ht.
    destruct Ht as [(lines1 & Hl1 & _) Hs1].
    assert (Hst : exists fs1, staged st1 = staged st ++ fs1).
    { destruct Hs1 as [[E _]|(f & E & _)];
        [exists []; now rewrite app_nil_r | exists [f]; exact E]. }
    destruct Hst as [fs1 Hfs1].
    destruct fl1 as [|code|e]; cbn [fst].
    + destruct (IH st1) as (fs & lines & Hfs & Hl).
      exists (fs1 ++ fs), (lines1 ++ lines).
      now rewrite Hfs, Hl, Hfs1, Hl1, <- !app_assoc.
    + exists fs1, lines1. auto.
    + exists fs1, lines1. auto.
Qed.

(** X17.  Nothing is rolled back.  What the loop has staged and printed for
    the first targets is still there, in the same order, when the loop goes
    on over further targets, however that ends: a failure on a later target
    leaves the files of the earlier ones in the output directory. *)
Theorem staged_files_are_kept (w : World) (assets : list asset)
    (ts1 ts2 : list target) (st st1 : state) :
  run_targets w assets st ts1 = (st1, Next) ->
  exists fs lines,
    staged (fst (run_targets w assets st (ts1 ++ ts2))) = staged st1 ++ fs
    /\ stderr (fst (run_targets w assets st (ts1 ++ ts2))) = stderr st1 ++ lines.
Proof.
  intros H1. rewrite run_targets_app, H1. apply run_targets_grows.
Qed.

Lemma staged_files_are_kept_witness :
  let w := unix_world flag_padded_one in
  exists fs,
    staged (fst (run_targets w unix_assets initial_state (targets true)))
    = staged (fst (run_targets w unix_assets initial_state unix_targets)) ++ fs
    /\ snd (run_targets w unix_assets initial_state (targets true)) = Return 1.
Proof.
  cbv zeta.
  destruct (staged_files_are_kept (unix_world flag_padded_one) unix_assets
              unix_targets [("windows", "amd64", true); ("windows", "arm64", true)]
              initial_state
              (fst (run_targets (unix_world flag_padded_one) unix_assets
                      initial_state unix_targets)))
    as (fs & lines & Hfs & _); [vm_compute; reflexivity|].
  exists fs. split; [exact Hfs | vm_compute; reflexivity].
Defined.


(** ** White space and odd member names *)

(** The no-break space U+00A0 and the next-line control U+0085 are white
    space for [strip()]: a flag value made of one of them and "1" requires
    the windows targets like "1" itself. *)
Lemma latin1_space_is_stripped :
  let nbsp := String (ascii_of_nat 160) "" in
  let nel := String (ascii_of_nat 133) "" in
  PyStr.strip (nbsp +:+ "1") = "1"
  /\ PyStr.strip ("1" +:+ nel) = "1"
  /\ require_windows_of
       (unix_world {[ "BIRDY_BUNDLE_WINDOWS" := nbsp +:+ "1" ]}) = true.
Proof. cbv zeta. repeat split; vm_compute; reflexivity. Qed.

(** A member name with two leading slashes resolves like the same name with
    one, and passes when it points into the scratch directory; a member name
    with a NUL byte makes [resolve()], and with it the extraction, raise
    ValueError. *)
Lemma guard_on_odd_member_names :
  let nul_name := "a" +:+ String (ascii_of_nat 0) "b" in
  check_member "/tmp/tmpab" "//tmp/tmpab/evil" = Ok true
  /\ check_member "/tmp/tmpab" "//etc/passwd" = Ok false
  /\ check_member "/tmp/tmpab" nul_name = Raise (ValueError "embedded null byte")
  /\ traversal_guard "tar" "/tmp/tmpab" ["bird"; nul_name]
     = Raise (ValueError "embedded null byte").
Proof. cbv zeta. repeat split; vm_compute; reflexivity. Qed.
